(** * Token lifecycle of the Box OAuth2 relay ([app.py])

    A shallow embedding of the OAuth2 part of [app.py]: the Flask session
    as a finite map, the provider and the clock as an oracle that answers
    from the history of the calls made so far, and the Python functions
    as computations in a state-and-exception monad. *)

From Stdlib Require Import ZArith String List Bool Lia.
From stdpp Require Import base option gmap strings list.
Import ListNotations.

#[local] Open Scope string_scope.
#[local] Open Scope list_scope.
#[local] Open Scope Z_scope.
#[local] Set Warnings "-register-all".

(** ** Python values *)

(** The values the program handles: what [json.loads] builds from a
    response body (None, booleans, integers, text, lists, objects) and
    the [datetime] kept in the session.  A [datetime] is the number of
    microseconds since [datetime.min].  JSON numbers with a fraction are
    outside the embedding. *)
Inductive pyval : Type :=
| PNone
| PBool (b : bool)
| PInt (n : Z)
| PStr (s : string)
| PDatetime (us : Z)
| PList (l : list pyval)
| PDict (d : gmap string pyval).

(** The exceptions the modelled statements raise.  [RequestException]
    stands for every failure of the HTTP transport. *)
Inductive exn : Type :=
| KeyError (key : string)
| TypeError
| AttributeError
| OverflowError
| RequestException.

(** [v.get(key)]: only a dict has the method; an absent key gives None. *)
Definition py_get (v : pyval) (key : string) : exn + pyval :=
  match v with
  | PDict d => inr (default PNone (d !! key))
  | _ => inl AttributeError
  end.

(** [v[key]] with a text key. *)
Definition py_getitem (v : pyval) (key : string) : exn + pyval :=
  match v with
  | PDict d =>
      match d !! key with
      | Some x => inr x
      | None => inl (KeyError key)
      end
  | _ => inl TypeError
  end.

(** The integer a value denotes in arithmetic: [bool] is a subtype of
    [int] in Python, every other value modelled here is not a number. *)
Definition py_int (v : pyval) : option Z :=
  match v with
  | PInt n => Some n
  | PBool b => Some (if b then 1 else 0)
  | _ => None
  end.

(** [v - k] for an integer literal [k]. *)
Definition py_sub (v : pyval) (k : Z) : exn + Z :=
  match py_int v with
  | Some n => inr (n - k)
  | None => inl TypeError
  end.

(** [now > v] where [now] is a datetime: ordering a datetime against
    another type raises. *)
Definition py_datetime_gt (now : Z) (v : pyval) : exn + bool :=
  match v with
  | PDatetime e => inr (e <? now)
  | _ => inl TypeError
  end.

(** ** [datetime] and [timedelta] *)

Module datetime.

Definition us_per_second : Z := 1000000.

(** [datetime.max], 9999-12-31 23:59:59.999999. *)
Definition max : Z := 3652059 * 86400 * us_per_second - 1.

(** [timedelta(seconds=k)] in microseconds; the day count is limited
    to 999999999 in magnitude. *)
Definition timedelta (k : Z) : exn + Z :=
  if (Z.abs (k / 86400) <=? 999999999)
  then inr (k * us_per_second)
  else inl OverflowError.

(** [t + delta]; the sum must be a representable datetime. *)
Definition add (t delta : Z) : exn + Z :=
  if (0 <=? t + delta) && (t + delta <=? max)
  then inr (t + delta)
  else inl OverflowError.

End datetime.

(** ** The outside world *)

(** What [requests] hands back.  [json] is the property of the
    [requests] releases the program is written for: the decoded body,
    None when the body is not JSON. *)
Record Response : Type := mkResponse {
  status_code : Z;
  json : pyval
}.

(** Every interaction with the outside is recorded, with its answer. *)
Inductive event : Type :=
| EvNow (t : Z)
| EvPost (url : string) (data : gmap string pyval) (r : option Response)
| EvGet (url : string) (headers : gmap string string) (r : option Response).

(** The process environment, the clock and the provider.  Each answer
    may depend on everything that happened before; [None] from the
    network is a transport failure. *)
Record World : Type := mkWorld {
  environ : gmap string string;
  clock : list event -> Z;
  http_post : list event -> string -> gmap string pyval -> option Response;
  http_get : list event -> string -> gmap string string -> option Response
}.

Record state : Type := mkState {
  session : gmap string pyval;
  trace : list event
}.

Definition log (ev : event) (st : state) : state :=
  {| session := session st; trace := trace st ++ [ev] |}.

Definition is_post (ev : event) : bool :=
  match ev with EvPost _ _ _ => true | _ => false end.

Definition is_get (ev : event) : bool :=
  match ev with EvGet _ _ _ => true | _ => false end.

(** Number of token exchanges and of resource requests in a trace. *)
Definition posts (tr : list event) : nat := length (filter is_post tr).
Definition gets (tr : list event) : nat := length (filter is_get tr).

(** ** State and exceptions *)

Inductive outcome (A : Type) : Type :=
| Return (a : A) (st : state)
| Raise (e : exn) (st : state).
Arguments Return {A} a st.
Arguments Raise {A} e st.

Definition M (A : Type) : Type := state -> outcome A.

Definition ret {A} (a : A) : M A := fun st => Return a st.

Definition raise {A} (e : exn) : M A := fun st => Raise e st.

Definition bind {A B} (m : M A) (k : A -> M B) : M B :=
  fun st =>
    match m st with
    | Return a st' => k a st'
    | Raise e st' => Raise e st'
    end.

Definition lift {A} (r : exn + A) : M A :=
  match r with
  | inr a => ret a
  | inl e => raise e
  end.

Definition final {A} (o : outcome A) : state :=
  match o with
  | Return _ st => st
  | Raise _ st => st
  end.

Declare Scope py_scope.
Delimit Scope py_scope with py.
Notation "x <- m ;; k" := (bind m (fun x => k))
  (at level 100, m at next level, right associativity) : py_scope.
Notation "m ;;; k" := (bind m (fun _ => k))
  (at level 100, right associativity) : py_scope.
#[local] Open Scope py_scope.

(** ** Flask results *)

Inductive HttpResult : Type :=
| Redirect (location : string)
| Jsonify (v : pyval)
| Text (body : string).

(** The paths [url_for] builds from the [@app.route] rules. *)
Definition url_for_login : string := "/login".
Definition url_for_box_folder (folder_id : string) : string :=
  "/box-folder/" +:+ folder_id.

Definition BASE_URL : string := "https://api.box.com/".

Definition OAUTH_CREDENTIALS : string := "oauth_credentials".
Definition OAUTH_EXPIRATION : string := "oauth_expiration".

Section App.

(** The world the process runs in, and Python's [str] for the values
    that are not text already (the [%s] directive applies it). *)
Variable w : World.
Variable str_other : pyval -> string.

(** ['...%s' % v] *)
Definition format_s (v : pyval) : string :=
  match v with
  | PStr s => s
  | _ => str_other v
  end.

(** *** Primitive statements *)

(** [datetime.now()] *)
Definition datetime_now : M Z :=
  fun st => let t := clock w (trace st) in Return t (log (EvNow t) st).

(** [session[key]] *)
Definition session_getitem (key : string) : M pyval :=
  fun st =>
    match session st !! key with
    | Some v => Return v st
    | None => Raise (KeyError key) st
    end.

(** [session[key] = v] *)
Definition session_setitem (key : string) (v : pyval) : M unit :=
  fun st => Return tt {| session := <[key := v]> (session st); trace := trace st |}.

(** [key in session] *)
Definition session_contains (key : string) : M bool :=
  fun st => Return (bool_decide (is_Some (session st !! key))) st.

(** [session.clear()] *)
Definition session_clear : M unit :=
  fun st => Return tt {| session := ∅; trace := trace st |}.

(** [os.environ[key]] *)
Definition environ_getitem (key : string) : M string :=
  match environ w !! key with
  | Some v => ret v
  | None => raise (KeyError key)
  end.

(** [requests.post(url, data=data)] *)
Definition requests_post (url : string) (data : gmap string pyval) : M Response :=
  fun st =>
    let r := http_post w (trace st) url data in
    match r with
    | Some resp => Return resp (log (EvPost url data r) st)
    | None => Raise RequestException (log (EvPost url data r) st)
    end.

(** [requests.get(url, headers=headers)] *)
Definition requests_get (url : string) (headers : gmap string string) : M Response :=
  fun st =>
    let r := http_get w (trace st) url headers in
    match r with
    | Some resp => Return resp (log (EvGet url headers r) st)
    | None => Raise RequestException (log (EvGet url headers r) st)
    end.

(** *** OAuth 2 methods *)

(** [build_box_api_url(endpoint, params='')].  [params] is the list of
    the items of the dict in the order [iteritems] yields them, [None]
    the default ['']. *)
Definition build_box_api_url (endpoint : string)
    (params : option (list (string * string))) : string :=
  let params :=
    match params with
    | Some items =>
        String.concat "&" (map (fun kv => fst kv +:+ "=" +:+ snd kv) items)
    | None => ""
    end in
  BASE_URL +:+ endpoint +:+ "?" +:+ params.

(** [get_token], called with keyword arguments [kwargs]. *)
Definition get_token (kwargs : gmap string pyval) : M pyval :=
  let url := build_box_api_url "oauth2/token" None in
  let kwargs :=
    match kwargs !! "grant_type" with
    | None => <["grant_type" := PStr "authorization_code"]> kwargs
    | Some _ => kwargs
    end in
  client_id <- environ_getitem "BOX_CLIENT_ID" ;;
  let kwargs := <["client_id" := PStr client_id]> kwargs in
  client_secret <- environ_getitem "BOX_CLIENT_SECRET" ;;
  let kwargs := <["client_secret" := PStr client_secret]> kwargs in
  token_response <- requests_post url kwargs ;;
  ret (json token_response).

(** [set_oauth_credentials(oauth_response)].  The left operand of the
    sum, [datetime.now()], is evaluated before the [timedelta]. *)
Definition set_oauth_credentials (oauth_response : pyval) : M unit :=
  token_expiration <- lift (py_get oauth_response "expires_in") ;;
  now <- datetime_now ;;
  seconds <- lift (py_sub token_expiration 15) ;;
  delta <- lift (datetime.timedelta seconds) ;;
  expiration <- lift (datetime.add now delta) ;;
  session_setitem OAUTH_EXPIRATION (PDatetime expiration) ;;;
  session_setitem OAUTH_CREDENTIALS oauth_response.

(** [refresh_oauth_credentials()] *)
Definition refresh_oauth_credentials : M unit :=
  credentials <- session_getitem OAUTH_CREDENTIALS ;;
  refresh_token <- lift (py_getitem credentials "refresh_token") ;;
  oauth_response <-
    get_token {[ "grant_type" := PStr "refresh_token";
                 "refresh_token" := refresh_token ]} ;;
  set_oauth_credentials oauth_response.

(** [oauth_credentials_are_expired()] *)
Definition oauth_credentials_are_expired : M bool :=
  now <- datetime_now ;;
  expiration <- session_getitem OAUTH_EXPIRATION ;;
  lift (py_datetime_gt now expiration).

(** [refresh_access_token_if_needed(func)]: the decorator returns
    [checked_auth], which passes its arguments on to [func]. *)
Definition refresh_access_token_if_needed {A : Type}
    (func : A -> M Response) (args : A) : M Response :=
  expired <- oauth_credentials_are_expired ;;
  (if expired : bool then refresh_oauth_credentials else ret tt) ;;;
  api_response <- func args ;;
  if status_code api_response =? 401
  then (refresh_oauth_credentials ;;; func args)
  else ret api_response.

(** The body of [get_box_folder], before decoration. *)
Definition get_box_folder_body (folder_id : string) : M Response :=
  let resource := "2.0/folders/" +:+ folder_id in
  let url := build_box_api_url resource None in
  credentials <- session_getitem OAUTH_CREDENTIALS ;;
  bearer_token <- lift (py_getitem credentials "access_token") ;;
  let auth_header : gmap string string :=
    {[ "Authorization" := "Bearer " +:+ format_s bearer_token ]} in
  requests_get url auth_header.

(** [get_box_folder], as bound by [@refresh_access_token_if_needed]. *)
Definition get_box_folder : string -> M Response :=
  refresh_access_token_if_needed get_box_folder_body.

(** *** Routes *)

(** [requires_auth(func)] *)
Definition requires_auth {A : Type}
    (func : A -> M HttpResult) (args : A) : M HttpResult :=
  present <- session_contains OAUTH_CREDENTIALS ;;
  if negb present
  then ret (Redirect url_for_login)
  else func args.

(** The body of [box_folder], before decoration. *)
Definition box_folder_body (folder_id : string) : M HttpResult :=
  api_response <- get_box_folder folder_id ;;
  credentials <- session_getitem OAUTH_CREDENTIALS ;;
  access_token <- lift (py_getitem credentials "access_token") ;;
  ret (Jsonify (PDict {[ "access_token" := access_token;
                         "api_response" := json api_response ]})).

(** [box_folder], as bound by [@requires_auth]. *)
Definition box_folder : string -> M HttpResult :=
  requires_auth box_folder_body.

(** [box_auth()]; [code] is [request.args.get('code')]. *)
Definition box_auth (code : pyval) : M HttpResult :=
  oauth_response <- get_token {[ "code" := code ]} ;;
  set_oauth_credentials oauth_response ;;;
  ret (Redirect (url_for_box_folder "0")).

(** [logout()] *)
Definition logout : M HttpResult :=
  session_clear ;;;
  ret (Text "You are now logged out of your Box account.").

End App.

(** * Properties *)

(** ** Vocabulary of the statements *)

(** The lifetime a token response reports, when it reports one as a
    number: the response is an object whose [expires_in] is an integer
    (or, as Python has it, a boolean). *)
Definition expires_in (oauth_response : pyval) : option Z :=
  match oauth_response with
  | PDict d => d !! "expires_in" ≫= py_int
  | _ => None
  end.

(** The session after a Credential Set and its Expiry Instant were
    stored. *)
Definition stored (oauth_response : pyval) (expiration : Z)
    (s : gmap string pyval) : gmap string pyval :=
  <[OAUTH_CREDENTIALS := oauth_response]>
    (<[OAUTH_EXPIRATION := PDatetime expiration]> s).

(** The instant [T + (n - 15) s] is one Python can build: the
    [timedelta] and the sum are in range. *)
Definition representable (T n : Z) : Prop :=
  Z.abs ((n - 15) / 86400) <= 999999999 /\
  0 <= T + (n - 15) * 1000000 <= datetime.max.

(** The fields the provider's token response is expected to carry. *)
Definition has_required_fields (body : pyval) : bool :=
  match body with
  | PDict d =>
      bool_decide (is_Some (d !! "access_token"))
      && bool_decide (is_Some (d !! "refresh_token"))
      && bool_decide (is_Some (d !! "expires_in" ≫= py_int))
  | _ => false
  end.

(** The form [get_token] posts: the grant type defaults to the
    authorization-code grant, then the client's identifier and secret
    are added. *)
Definition token_url : string := build_box_api_url "oauth2/token" None.

Definition token_form (client_id client_secret : string)
    (kwargs : gmap string pyval) : gmap string pyval :=
  <["client_secret" := PStr client_secret]>
    (<["client_id" := PStr client_id]>
       (match kwargs !! "grant_type" with
        | None => <["grant_type" := PStr "authorization_code"]> kwargs
        | Some _ => kwargs
        end)).

(** The form of a refresh-token exchange. *)
Definition refresh_form (client_id client_secret : string)
    (refresh_token : pyval) : gmap string pyval :=
  token_form client_id client_secret
    {[ "grant_type" := PStr "refresh_token";
       "refresh_token" := refresh_token ]}.

(** The Credential Set [c] was issued at [T]: a token exchange answered
    with the body [c], and [T] is the reading of the clock taken right
    after that answer. *)
Definition issued (tr : list event) (c : pyval) (T : Z) : Prop :=
  exists pre post url data r,
    tr = pre ++ EvPost url data (Some r) :: EvNow T :: post /\ json r = c.

(** The invariant of the Session Context: no Credential Set and no
    Expiry Instant, or a Credential Set with the Expiry Instant computed
    from its own lifetime and its own issuance. *)
Definition coherent (st : state) : Prop :=
  (session st !! OAUTH_CREDENTIALS = None /\
   session st !! OAUTH_EXPIRATION = None)
  \/ (exists c n T,
        issued (trace st) c T /\
        expires_in c = Some n /\
        session st !! OAUTH_CREDENTIALS = Some c /\
        session st !! OAUTH_EXPIRATION = Some (PDatetime (T + (n - 15) * 1000000))).

(** The session changes only by storing both fields or by dropping
    everything. *)
Inductive pair_steps (s : gmap string pyval) : gmap string pyval -> Prop :=
| pair_steps_refl : pair_steps s s
| pair_steps_store s' c e : pair_steps s s' -> pair_steps s (stored c e s')
| pair_steps_clear s' : pair_steps s s' -> pair_steps s ∅.

(** The requests that touch the session. *)
Inductive request : Type :=
| GetBoxFolder (folder_id : string)
| GetBoxAuth (code : pyval)
| GetLogout.

(** One run of a computation, from [st] to [st']: the trace only grows,
    the session only changes by whole pairs, and the invariant is kept. *)
Definition advances (st st' : state) : Prop :=
  (exists seg, trace st' = trace st ++ seg) /\
  pair_steps (session st) (session st') /\
  (coherent st -> coherent st').

Section Phases.

Variable w : World.
Variable str_other : pyval -> string.

(** Lines 72-73 of [checked_auth]: the refresh before the call. *)
Definition proactive_refresh : M unit :=
  expired <- oauth_credentials_are_expired w ;;
  if expired : bool then refresh_oauth_credentials w else ret tt.

(** Lines 75-80 of [checked_auth]: the call, and the refresh and the
    second call after a 401. *)
Definition call_with_reactive_refresh {A : Type}
    (func : A -> M Response) (args : A) : M Response :=
  api_response <- func args ;;
  if status_code api_response =? 401
  then (refresh_oauth_credentials w ;;; func args)
  else ret api_response.

Definition handle (rq : request) : M HttpResult :=
  match rq with
  | GetBoxFolder folder_id => box_folder w str_other folder_id
  | GetBoxAuth code => box_auth w code
  | GetLogout => logout
  end.

(** The state after a sequence of requests, whatever each one gave. *)
Fixpoint serve (rqs : list request) (st : state) : state :=
  match rqs with
  | [] => st
  | rq :: rest => serve rest (final (handle rq st))
  end.

End Phases.

Section Stated.

Variable w : World.
Variable str_other : pyval -> string.

(** The specification's reading of the token exchange: it never hands
    back a body that lacks a required field. *)
Definition acquire_validates (kwargs : gmap string pyval) (st : state) : Prop :=
  match get_token w kwargs st with
  | Return body _ => has_required_fields body = true
  | Raise _ _ => True
  end.

(** The specification's reading of the reactive refresh: whenever the
    first request for the folder is answered with a 401, the wrapper
    returns a result, after one more token exchange and one more
    request. *)
Definition retried_after_401 (folder_id : string) (st : state) : Prop :=
  forall sA r1 sB,
    proactive_refresh w st = Return tt sA ->
    get_box_folder_body w str_other folder_id sA = Return r1 sB ->
    status_code r1 = 401 ->
    exists r2 sD,
      get_box_folder w str_other folder_id st = Return r2 sD /\
      posts (trace sD) = S (posts (trace sB)) /\
      gets (trace sD) = S (gets (trace sB)).

End Stated.

(** ** Concrete worlds *)

Module Demo.

Definition token_body (access refresh : string) (lifetime : Z) : pyval :=
  PDict {[ "access_token" := PStr access;
           "refresh_token" := PStr refresh;
           "expires_in" := PInt lifetime ]}.

(** The body the provider sends when it refuses a grant. *)
Definition denied_body : pyval :=
  PDict {[ "error" := PStr "invalid_grant" ]}.

Definition folder_body : pyval :=
  PDict {[ "id" := PStr "0"; "name" := PStr "root" ]}.

Definition env : gmap string string :=
  {[ "BOX_CLIENT_ID" := "id"; "BOX_CLIENT_SECRET" := "secret" ]}.

Definition t0 : Z := 63000000000000000.

(** A clock that advances one second per recorded event. *)
Definition ticking (tr : list event) : Z :=
  t0 + Z.of_nat (length tr) * 1000000.

Definition str0 (v : pyval) : string := "".

Definition bearer (tok : string) : gmap string string :=
  {[ "Authorization" := "Bearer " +:+ tok ]}.

(** The provider issues [tok2] and accepts only [tok2]. *)
Definition w_rotating : World :=
  {| environ := env;
     clock := ticking;
     http_post := fun _ _ _ =>
       Some (mkResponse 200 (token_body "tok2" "ref2" 3600));
     http_get := fun _ _ headers =>
       if bool_decide (headers = bearer "tok2")
       then Some (mkResponse 200 folder_body)
       else Some (mkResponse 401 PNone) |}.

(** The provider answers every resource request with 401. *)
Definition w_rejecting : World :=
  {| environ := env;
     clock := ticking;
     http_post := fun _ _ _ =>
       Some (mkResponse 200 (token_body "tok2" "ref2" 3600));
     http_get := fun _ _ _ => Some (mkResponse 401 PNone) |}.

(** The provider refuses every grant and every resource request. *)
Definition w_denying : World :=
  {| environ := env;
     clock := ticking;
     http_post := fun _ _ _ => Some (mkResponse 400 denied_body);
     http_get := fun _ _ _ => Some (mkResponse 401 PNone) |}.

(** A session whose token was issued at [t0]. *)
Definition fresh_session : gmap string pyval :=
  stored (token_body "tok1" "ref1" 3600) (t0 + 3585 * 1000000) ∅.

(** A session whose token ran out before [t0]. *)
Definition stale_session : gmap string pyval :=
  stored (token_body "tok1" "ref1" 3600) (t0 - 1) ∅.

Definition st_empty : state := {| session := ∅; trace := [] |}.
Definition st_fresh : state := {| session := fresh_session; trace := [] |}.
Definition st_stale : state := {| session := stale_session; trace := [] |}.

Definition code_abc : gmap string pyval := {[ "code" := PStr "abc" ]}.

(** The state a folder request reaches after the expiry check, and
    after its first call, in a given world. *)
Definition after_check (w : World) (st : state) : state :=
  final (proactive_refresh w st).

Definition after_first_call (w : World) (st : state) : state :=
  final (get_box_folder_body w str0 "0" (after_check w st)).

Definition after_reactive_refresh (w : World) (st : state) : state :=
  final (refresh_oauth_credentials w (after_first_call w st)).

Definition answer_401 : Response := mkResponse 401 PNone.

End Demo.

Ltac unfold_py :=
  unfold bind, ret, raise, lift, log in *; simpl in *.

(** ** The remaining routes *)

Section Login.

Variable w : World.

(** [params.iteritems()]: the items of a dict, in the order the
    interpreter walks it. *)
Variable iteritems : gmap string string -> list (string * string).

(** [redirect_to_folder()] *)
Definition redirect_to_folder : M HttpResult :=
  ret (Redirect (url_for_box_folder "0")).

(** [login()] *)
Definition login : M HttpResult :=
  client_id <- environ_getitem w "BOX_CLIENT_ID" ;;
  let params : gmap string string :=
    {[ "response_type" := "code"; "client_id" := client_id ]} in
  ret (Redirect (build_box_api_url "oauth2/authorize" (Some (iteritems params)))).

End Login.

(** ** Budgets *)

(** The session after the pairs of [l] were stored one after the other. *)
Fixpoint store_all (l : list (pyval * Z)) (s : gmap string pyval)
    : gmap string pyval :=
  match l with
  | [] => s
  | (c, e) :: rest => store_all rest (stored c e s)
  end.

(** A run from [st] to [st'] that only adds to the trace, with at most
    [g] resource requests and [p] token exchanges, and that changes the
    session by no more stores than it made exchanges. *)
Definition within (g p : nat) (st st' : state) : Prop :=
  exists seg l,
    trace st' = trace st ++ seg /\
    (gets seg <= g)%nat /\
    (posts seg <= p)%nat /\
    (length l <= posts seg)%nat /\
    session st' = store_all l (session st).

(** The URL of a folder and the header that carries a bearer token. *)
Definition folder_url (folder_id : string) : string :=
  build_box_api_url ("2.0/folders/" +:+ folder_id) None.

Definition folder_page (access_token body : pyval) : HttpResult :=
  Jsonify (PDict {[ "access_token" := access_token; "api_response" := body ]}).

(** ** More concrete worlds *)

Module Cases.

Import Demo.

(** The provider answers every resource request with the root folder. *)
Definition w_accepting : World :=
  {| environ := env;
     clock := ticking;
     http_post := fun _ _ _ =>
       Some (mkResponse 200 (token_body "tok2" "ref2" 3600));
     http_get := fun _ _ _ => Some (mkResponse 200 folder_body) |}.

(** The provider issues tokens that live ten seconds. *)
Definition w_short_lived : World :=
  {| environ := env;
     clock := ticking;
     http_post := fun _ _ _ =>
       Some (mkResponse 200 (token_body "tok2" "ref2" 10));
     http_get := fun _ _ _ => Some (mkResponse 200 folder_body) |}.

(** A stale session whose Credential Set came without a refresh token. *)
Definition st_no_refresh_token : state :=
  {| session :=
       stored (PDict {[ "access_token" := PStr "tok1";
                        "expires_in" := PInt 3600 ]}) (t0 - 1) ∅;
     trace := [] |}.

(** The items of a dict in the order the map enumerates them. *)
Definition iteritems_sorted (m : gmap string string) : list (string * string) :=
  map_to_list m.

End Cases.

(** Closes [tr' = tr ++ seg /\ gets seg = 0 /\ posts seg <= 1] for an
    explicit segment. *)
Ltac quiet_segment :=
  split;
  [ try rewrite app_nil_r; try rewrite <- app_assoc; reflexivity
  | split; [ reflexivity | unfold posts; simpl; lia ] ].

Section Properties.

Variable w : World.
Variable str_other : pyval -> string.


(** *** Storing credentials *)




Lemma timedelta_inr (k d : Z) :
  datetime.timedelta k = inr d -> d = k * 1000000.
Proof.
  unfold datetime.timedelta, datetime.us_per_second.
  destruct (_ <=? _); congruence.
Qed.

Lemma add_inr (t d r : Z) : datetime.add t d = inr r -> r = t + d.
Proof. unfold datetime.add. destruct (_ && _); congruence. Qed.


(** Whenever the operation returns, it has stored the pair built from
    its argument and its own reading of the clock. *)
Lemma set_oauth_credentials_inv (resp : pyval) (st st' : state) :
  set_oauth_credentials w resp st = Return tt st' ->
  exists n,
    expires_in resp = Some n /\
    representable (clock w (trace st)) n /\
    st' = {| session := stored resp (clock w (trace st) + (n - 15) * 1000000)
                          (session st);
             trace := trace st ++ [EvNow (clock w (trace st))] |}.
Proof.
  unfold set_oauth_credentials. unfold_py.
  destruct resp as [| | | | |l|d]; simpl; try discriminate.
  unfold datetime_now, py_sub. simpl.
  destruct (d !! "expires_in") as [v|] eqn:E; simpl; [|discriminate].
  destruct (py_int v) as [n|] eqn:Hn; simpl; [|discriminate].
  destruct (datetime.timedelta (n - 15)) as [e|delta] eqn:Hd; simpl;
    [discriminate|].
  destruct (datetime.add (clock w (trace st)) delta) as [e|r] eqn:Ha; simpl;
    [discriminate|].
  intros [= <-]. exists n.
  pose proof (timedelta_inr _ _ Hd) as ->.
  pose proof (add_inr _ _ _ Ha) as ->.
  split; [done|]. split; [|done].
  unfold representable, datetime.timedelta, datetime.add in *.
  destruct (Z.leb_spec (Z.abs ((n - 15) / 86400)) 999999999); [|discriminate].
  destruct (Z.leb_spec 0 (clock w (trace st) + (n - 15) * 1000000));
    [|discriminate].
  destruct (Z.leb_spec (clock w (trace st) + (n - 15) * 1000000) datetime.max);
    [|discriminate].
  lia.
Qed.

(** Whenever the operation raises, the session is as it was. *)
Lemma set_oauth_credentials_raise (resp : pyval) (e : exn) (st st' : state) :
  set_oauth_credentials w resp st = Raise e st' ->
  session st' = session st /\
  (trace st' = trace st \/ trace st' = trace st ++ [EvNow (clock w (trace st))]).
Proof.
  unfold set_oauth_credentials. unfold_py.
  destruct (py_get resp "expires_in") as [e0|v]; simpl.
  { intros [= _ <-]. auto. }
  unfold datetime_now. simpl.
  destruct (py_sub v 15) as [e0|k]; simpl.
  { intros [= _ <-]. auto. }
  destruct (datetime.timedelta k) as [e0|delta]; simpl.
  { intros [= _ <-]. auto. }
  destruct (datetime.add (clock w (trace st)) delta) as [e0|r]; simpl.
  { intros [= _ <-]. auto. }
  discriminate.
Qed.

(** C8. A token response that reports a numeric [expires_in] of [n]
    seconds and is stored at instant [T] leaves the session with the
    Expiry Instant [T + (n - 15)] seconds, next to that same response;
    at [n = 3600] this is [T + 3585] seconds. *)
Theorem stored_expiry_instant (resp : pyval) (n : Z) (st st' : state) :
  expires_in resp = Some n ->
  set_oauth_credentials w resp st = Return tt st' ->
  session st' !! OAUTH_EXPIRATION =
    Some (PDatetime (clock w (trace st) + (n - 15) * 1000000))
  /\ session st' !! OAUTH_CREDENTIALS = Some resp
  /\ (n = 3600 ->
      session st' !! OAUTH_EXPIRATION =
        Some (PDatetime (clock w (trace st) + 3585 * 1000000))).
Proof.
  intros He Hs.
  destruct (set_oauth_credentials_inv _ _ _ Hs) as (m & Hm & _ & ->).
  assert (m = n) as -> by congruence.
  simpl. unfold stored.
  split; [|split].
  - rewrite lookup_insert_ne by done. by rewrite lookup_insert_eq.
  - by rewrite lookup_insert_eq.
  - intros ->. rewrite lookup_insert_ne by done. by rewrite lookup_insert_eq.
Qed.

(** C10. A response without a numeric [expires_in] makes the storing
    operation raise before it writes: the session keeps both of its
    fields as they were. *)
Theorem store_without_expires_in_writes_nothing (resp : pyval) (st : state) :
  expires_in resp = None ->
  exists e st',
    set_oauth_credentials w resp st = Raise e st' /\
    session st' = session st /\
    session st' !! OAUTH_CREDENTIALS = session st !! OAUTH_CREDENTIALS /\
    session st' !! OAUTH_EXPIRATION = session st !! OAUTH_EXPIRATION.
Proof.
  intros He.
  destruct (set_oauth_credentials w resp st) as [[] st'|e st'] eqn:Hs.
  - destruct (set_oauth_credentials_inv _ _ _ Hs) as (n & Hn & _). congruence.
  - destruct (set_oauth_credentials_raise _ _ _ _ Hs) as [Hsess _].
    exists e, st'. by rewrite Hsess.
Qed.

(** *** The expiry decision *)

(** C7. With the Expiry Instant [e] in the session and the clock at [t],
    the decision is true exactly when [t > e]; at [t = e] it is false;
    it leaves the session as it was and only reads the clock. *)
Theorem expired_iff_now_after_expiry (st : state) (e : Z) :
  session st !! OAUTH_EXPIRATION = Some (PDatetime e) ->
  exists b st',
    oauth_credentials_are_expired w st = Return b st' /\
    (b = true <-> clock w (trace st) > e) /\
    (clock w (trace st) = e -> b = false) /\
    session st' = session st /\
    trace st' = trace st ++ [EvNow (clock w (trace st))].
Proof.
  intros He. exists (e <? clock w (trace st)), (log (EvNow (clock w (trace st))) st).
  split.
  - unfold oauth_credentials_are_expired, datetime_now, session_getitem.
    unfold_py. by rewrite He.
  - repeat split; try done.
    + intros H. apply Z.ltb_lt in H. lia.
    + intros H. apply Z.ltb_lt. lia.
    + intros ->. apply Z.ltb_irrefl.
Qed.

(** *** The route guard *)

(** C5. Without a Credential Set in the session, the folder route
    answers with the redirect to the login route and the state is the
    one it started from: the clock was not read, no token exchange and
    no resource request was made. *)
Theorem unauthenticated_redirects_before_any_call (folder_id : string) (st : state) :
  session st !! OAUTH_CREDENTIALS = None ->
  box_folder w str_other folder_id st = Return (Redirect "/login") st.
Proof.
  intros H. unfold box_folder, requires_auth, session_contains.
  unfold_py. rewrite H.
  rewrite bool_decide_eq_false_2; [done|].
  intros [x Hx]. discriminate.
Qed.

(** *** The token exchange *)

Lemma get_token_unfold (kwargs : gmap string pyval) (st : state)
    (client_id client_secret : string) :
  environ w !! "BOX_CLIENT_ID" = Some client_id ->
  environ w !! "BOX_CLIENT_SECRET" = Some client_secret ->
  get_token w kwargs st =
    (token_response <-
       requests_post w token_url (token_form client_id client_secret kwargs) ;;
     ret (json token_response)) st.
Proof.
  intros Hid Hsec. unfold get_token, environ_getitem.
  rewrite Hid, Hsec. reflexivity.
Qed.

Lemma get_token_post (kwargs : gmap string pyval) (st : state)
    (client_id client_secret : string) :
  environ w !! "BOX_CLIENT_ID" = Some client_id ->
  environ w !! "BOX_CLIENT_SECRET" = Some client_secret ->
  get_token w kwargs st =
    match http_post w (trace st) token_url
            (token_form client_id client_secret kwargs) with
    | Some r =>
        Return (json r)
          (log (EvPost token_url (token_form client_id client_secret kwargs)
                  (Some r)) st)
    | None =>
        Raise RequestException
          (log (EvPost token_url (token_form client_id client_secret kwargs)
                  None) st)
    end.
Proof.
  intros Hid Hsec. rewrite (get_token_unfold _ _ _ _ Hid Hsec).
  unfold requests_post. unfold_py.
  by destruct (http_post w (trace st) token_url _).
Qed.

(** C3, as the code has it.  With the client configured, [get_token]
    raises exactly when the transport fails; on any answer it returns
    the decoded body as it is, whatever fields it has, and it leaves
    the session alone. *)
Theorem get_token_returns_body_unchecked (kwargs : gmap string pyval) (st : state)
    (client_id client_secret : string) :
  environ w !! "BOX_CLIENT_ID" = Some client_id ->
  environ w !! "BOX_CLIENT_SECRET" = Some client_secret ->
  let data := token_form client_id client_secret kwargs in
  match http_post w (trace st) token_url data with
  | Some r =>
      get_token w kwargs st =
        Return (json r)
          {| session := session st;
             trace := trace st ++ [EvPost token_url data (Some r)] |}
  | None =>
      get_token w kwargs st =
        Raise RequestException
          {| session := session st;
             trace := trace st ++ [EvPost token_url data None] |}
  end.
Proof.
  intros Hid Hsec data. rewrite (get_token_post _ _ _ _ Hid Hsec). fold data.
  by destruct (http_post w (trace st) token_url data).
Qed.

Lemma get_token_inv (kwargs : gmap string pyval) (st st' : state) (v : pyval) :
  get_token w kwargs st = Return v st' ->
  exists client_id client_secret r,
    environ w !! "BOX_CLIENT_ID" = Some client_id /\
    environ w !! "BOX_CLIENT_SECRET" = Some client_secret /\
    http_post w (trace st) token_url (token_form client_id client_secret kwargs)
      = Some r /\
    v = json r /\
    st' = log (EvPost token_url (token_form client_id client_secret kwargs)
                 (Some r)) st.
Proof.
  destruct (environ w !! "BOX_CLIENT_ID") as [cid|] eqn:Hid.
  2:{ unfold get_token, environ_getitem. rewrite Hid. discriminate. }
  destruct (environ w !! "BOX_CLIENT_SECRET") as [sec|] eqn:Hsec.
  2:{ unfold get_token, environ_getitem. rewrite Hid, Hsec. discriminate. }
  rewrite (get_token_post _ _ _ _ Hid Hsec).
  destruct (http_post w (trace st) token_url (token_form cid sec kwargs))
    as [r|] eqn:Hp; [|discriminate].
  intros [= <- <-]. by exists cid, sec, r.
Qed.

Lemma get_token_raise (kwargs : gmap string pyval) (st st' : state) (e : exn) :
  get_token w kwargs st = Raise e st' ->
  session st' = session st /\
  (trace st' = trace st \/
   exists data, trace st' = trace st ++ [EvPost token_url data None]).
Proof.
  destruct (environ w !! "BOX_CLIENT_ID") as [cid|] eqn:Hid.
  2:{ unfold get_token, environ_getitem. rewrite Hid. intros [= _ <-]. auto. }
  destruct (environ w !! "BOX_CLIENT_SECRET") as [sec|] eqn:Hsec.
  2:{ unfold get_token, environ_getitem. rewrite Hid, Hsec.
      intros [= _ <-]. auto. }
  rewrite (get_token_post _ _ _ _ Hid Hsec).
  destruct (http_post w (trace st) token_url (token_form cid sec kwargs))
    as [r|] eqn:Hp; [discriminate|].
  intros [= _ <-]. split; [done|]. right. by eexists.
Qed.

(** *** Refreshing *)

(** The form of a refresh names the refresh-token grant and carries the
    token it was given. *)
Lemma refresh_form_fields (client_id client_secret : string) (refresh_token : pyval) :
  refresh_form client_id client_secret refresh_token !! "grant_type"
    = Some (PStr "refresh_token") /\
  refresh_form client_id client_secret refresh_token !! "refresh_token"
    = Some refresh_token.
Proof.
  unfold refresh_form, token_form.
  rewrite (lookup_insert_eq _ "grant_type"). cbn beta iota.
  split.
  - do 2 (rewrite lookup_insert_ne by done). by rewrite lookup_insert_eq.
  - do 3 (rewrite lookup_insert_ne by done). by rewrite lookup_singleton_eq.
Qed.

(** A refresh that returns has made one exchange, carrying the stored
    refresh token, and has stored the answer with its Expiry Instant. *)
Lemma refresh_oauth_credentials_inv (st st' : state) :
  refresh_oauth_credentials w st = Return tt st' ->
  exists credentials refresh_token client_id client_secret r n,
    session st !! OAUTH_CREDENTIALS = Some credentials /\
    py_getitem credentials "refresh_token" = inr refresh_token /\
    environ w !! "BOX_CLIENT_ID" = Some client_id /\
    environ w !! "BOX_CLIENT_SECRET" = Some client_secret /\
    let data := refresh_form client_id client_secret refresh_token in
    let tr := trace st ++ [EvPost token_url data (Some r)] in
    http_post w (trace st) token_url data = Some r /\
    expires_in (json r) = Some n /\
    st' = {| session := stored (json r) (clock w tr + (n - 15) * 1000000)
                          (session st);
             trace := tr ++ [EvNow (clock w tr)] |}.
Proof.
  unfold refresh_oauth_credentials, session_getitem.
  unfold bind at 1.
  destruct (session st !! OAUTH_CREDENTIALS) as [c|] eqn:Hc; [|discriminate].
  unfold bind at 1.
  destruct (py_getitem c "refresh_token") as [e|rt] eqn:Hrt; [discriminate|].
  unfold lift, ret. cbn beta iota. unfold bind at 1.
  destruct (get_token w _ st) as [v st1|e st1] eqn:Hg; [|discriminate].
  destruct (get_token_inv _ _ _ _ Hg) as (cid & sec & r & Hid & Hsec & Hp & -> & ->).
  intros Hs.
  destruct (set_oauth_credentials_inv _ _ _ Hs) as (n & Hn & _ & ->).
  exists c, rt, cid, sec, r, n. simpl. by repeat split.
Qed.

(** A refresh that raises has written nothing, has made at most one
    exchange and no resource request. *)
Lemma refresh_oauth_credentials_raise (st st' : state) (e : exn) :
  refresh_oauth_credentials w st = Raise e st' ->
  session st' = session st /\
  exists seg,
    trace st' = trace st ++ seg /\ gets seg = 0%nat /\ (posts seg <= 1)%nat.
Proof.
  unfold refresh_oauth_credentials, session_getitem.
  unfold bind at 1.
  destruct (session st !! OAUTH_CREDENTIALS) as [c|] eqn:Hc.
  2:{ intros [= _ <-]. split; [done|]. exists []. quiet_segment. }
  unfold bind at 1.
  destruct (py_getitem c "refresh_token") as [e0|rt] eqn:Hrt.
  { simpl. intros [= _ <-]. split; [done|]. exists []. quiet_segment. }
  unfold lift, ret. cbn beta iota. unfold bind at 1.
  destruct (get_token w _ st) as [v st1|e1 st1] eqn:Hg.
  - destruct (get_token_inv _ _ _ _ Hg) as (cid & sec & r & _ & _ & _ & -> & ->).
    intros Hs. destruct (set_oauth_credentials_raise _ _ _ _ Hs) as [Hsess Htr].
    split; [by rewrite Hsess|].
    destruct Htr as [Htr|Htr]; rewrite Htr; simpl.
    + eexists [_]. quiet_segment.
    + eexists [_; _]. quiet_segment.
  - intros [= _ <-]. destruct (get_token_raise _ _ _ _ Hg) as [Hsess Htr].
    split; [done|]. destruct Htr as [Htr|[data Htr]]; rewrite Htr.
    + exists []. quiet_segment.
    + eexists [_]. quiet_segment.
Qed.

(** *** The wrapper *)

Lemma posts_app (a b : list event) : posts (a ++ b) = (posts a + posts b)%nat.
Proof. unfold posts. by rewrite filter_app, length_app. Qed.

Lemma gets_app (a b : list event) : gets (a ++ b) = (gets a + gets b)%nat.
Proof. unfold gets. by rewrite filter_app, length_app. Qed.

(** [checked_auth] is the refresh before the call followed by the call
    with its one retry. *)
Lemma checked_auth_phases {A : Type} (func : A -> M Response) (args : A)
    (st : state) :
  refresh_access_token_if_needed w func args st =
    (proactive_refresh w ;;; call_with_reactive_refresh w func args) st.
Proof.
  unfold refresh_access_token_if_needed, proactive_refresh,
    call_with_reactive_refresh, bind.
  by destruct (oauth_credentials_are_expired w st) as [b st1|e st1].
Qed.

Lemma expired_inv (st st1 : state) (b : bool) :
  oauth_credentials_are_expired w st = Return b st1 ->
  st1 = log (EvNow (clock w (trace st))) st /\
  exists e, session st !! OAUTH_EXPIRATION = Some (PDatetime e) /\
            b = (e <? clock w (trace st)).
Proof.
  unfold oauth_credentials_are_expired, datetime_now, session_getitem.
  unfold_py.
  destruct (session st !! OAUTH_EXPIRATION) as [v|]; [|discriminate].
  destruct v; simpl; try discriminate.
  intros [= <- <-]. split; [done|]. by eexists.
Qed.

Lemma expired_at (st : state) (e : Z) :
  session st !! OAUTH_EXPIRATION = Some (PDatetime e) ->
  oauth_credentials_are_expired w st =
    Return (e <? clock w (trace st)) (log (EvNow (clock w (trace st))) st).
Proof.
  intros He. unfold oauth_credentials_are_expired, datetime_now, session_getitem.
  unfold_py. by rewrite He.
Qed.

(** The call and its one retry, once the first answer is a 401. *)
Lemma reactive_after_401 {A : Type} (func : A -> M Response) (args : A)
    (sA sB : state) (r1 : Response) :
  func args sA = Return r1 sB ->
  status_code r1 = 401 ->
  call_with_reactive_refresh w func args sA =
    match refresh_oauth_credentials w sB with
    | Return _ sC => func args sC
    | Raise e sC => Raise e sC
    end.
Proof.
  intros Hf H401. unfold call_with_reactive_refresh.
  unfold bind at 1. rewrite Hf, H401. simpl. reflexivity.
Qed.

Lemma checked_auth_after_401 {A : Type} (func : A -> M Response) (args : A)
    (st sA sB : state) (r1 : Response) :
  proactive_refresh w st = Return tt sA ->
  func args sA = Return r1 sB ->
  status_code r1 = 401 ->
  refresh_access_token_if_needed w func args st =
    match refresh_oauth_credentials w sB with
    | Return _ sC => func args sC
    | Raise e sC => Raise e sC
    end.
Proof.
  intros Hp Hf H401.
  rewrite checked_auth_phases. unfold bind at 1. rewrite Hp.
  exact (reactive_after_401 _ _ _ _ _ Hf H401).
Qed.

(** C1, as the code has it.  The first protected call is answered with
    a 401.  When the refresh that follows returns, it was one exchange
    under the stored refresh token, and the wrapper's outcome is that of the protected call run once
    more, whatever it is; when the refresh raises, the wrapper raises
    the same exception and the protected call is not run again. *)
Theorem reactive_refresh_retries_once {A : Type} (func : A -> M Response)
    (args : A) (st sA sB : state) (r1 : Response) :
  proactive_refresh w st = Return tt sA ->
  func args sA = Return r1 sB ->
  status_code r1 = 401 ->
  match refresh_oauth_credentials w sB with
  | Return _ sC =>
      refresh_access_token_if_needed w func args st = func args sC /\
      exists client_id client_secret credentials refresh_token r T,
        session sB !! OAUTH_CREDENTIALS = Some credentials /\
        py_getitem credentials "refresh_token" = inr refresh_token /\
        trace sC =
          trace sB
            ++ [EvPost token_url
                  (refresh_form client_id client_secret refresh_token) (Some r);
                EvNow T]
  | Raise e sC =>
      refresh_access_token_if_needed w func args st = Raise e sC /\
      session sC = session sB /\
      gets (trace sC) = gets (trace sB)
  end.
Proof.
  intros Hp Hf H401.
  pose proof (checked_auth_after_401 _ _ _ _ _ _ Hp Hf H401) as Hw.
  destruct (refresh_oauth_credentials w sB) as [[] sC|e sC] eqn:Hr.
  - split; [exact Hw|].
    destruct (refresh_oauth_credentials_inv _ _ Hr)
      as (c & rt & cid & sec & r & n & Hc & Hrt & _ & _ & _ & _ & ->).
    exists cid, sec, c, rt, r. eexists.
    split; [exact Hc|]. split; [exact Hrt|].
    simpl. by rewrite <- app_assoc.
  - split; [exact Hw|].
    destruct (refresh_oauth_credentials_raise _ _ _ Hr)
      as (Hs & seg & Ht & Hg & _).
    split; [done|]. rewrite Ht, gets_app, Hg. lia.
Qed.

Lemma checked_auth_after_expiry_check {A : Type} (func : A -> M Response)
    (args : A) (st : state) (e : Z) :
  session st !! OAUTH_EXPIRATION = Some (PDatetime e) ->
  refresh_access_token_if_needed w func args st =
    ((if e <? clock w (trace st) then refresh_oauth_credentials w else ret tt) ;;;
     call_with_reactive_refresh w func args)
      (log (EvNow (clock w (trace st))) st).
Proof.
  intros He. unfold refresh_access_token_if_needed, call_with_reactive_refresh.
  unfold bind at 1. by rewrite (expired_at _ _ He).
Qed.

(** C2. With the Expiry Instant [e] in the session and the clock at
    [t]: when [e < t] the refresh runs first, and if it returns, it was
    one exchange under the stored refresh token, the session holds the new Credential Set and its new
    Expiry Instant, and the protected call starts from that state; when
    [e >= t] the protected call starts from the session as it was,
    without any exchange. *)
Theorem proactive_refresh_precedes_call {A : Type} (func : A -> M Response)
    (args : A) (st : state) (e : Z) :
  session st !! OAUTH_EXPIRATION = Some (PDatetime e) ->
  let t := clock w (trace st) in
  let st1 := {| session := session st; trace := trace st ++ [EvNow t] |} in
  if e <? t then
    match refresh_oauth_credentials w st1 with
    | Return _ st2 =>
        refresh_access_token_if_needed w func args st =
          call_with_reactive_refresh w func args st2 /\
        exists client_id client_secret credentials refresh_token r n T,
          session st !! OAUTH_CREDENTIALS = Some credentials /\
          py_getitem credentials "refresh_token" = inr refresh_token /\
          trace st2 =
            trace st
              ++ [EvNow t;
                  EvPost token_url
                    (refresh_form client_id client_secret refresh_token) (Some r);
                  EvNow T] /\
          expires_in (json r) = Some n /\
          session st2 = stored (json r) (T + (n - 15) * 1000000) (session st)
    | Raise ex st2 =>
        refresh_access_token_if_needed w func args st = Raise ex st2
    end
  else
    refresh_access_token_if_needed w func args st =
      call_with_reactive_refresh w func args st1.
Proof.
  intros He t st1.
  pose proof (checked_auth_after_expiry_check func args st e He) as Hw.
  fold t in Hw. change (log (EvNow t) st) with st1 in Hw.
  destruct (e <? t).
  - unfold bind in Hw.
    destruct (refresh_oauth_credentials w st1) as [[] st2|ex st2] eqn:Hr;
      [|exact Hw].
    split; [exact Hw|].
    destruct (refresh_oauth_credentials_inv _ _ Hr)
      as (c & rt & cid & sec & r & n & Hc & Hrt & _ & _ & _ & Hn & ->).
    simpl. exists cid, sec, c, rt, r, n. eexists.
    split; [exact Hc|]. split; [exact Hrt|].
    split; [|split; [exact Hn|reflexivity]].
    by rewrite <- !app_assoc.
  - exact Hw.
Qed.

(** C4. When the expiry decision is true and the refresh it triggers
    raises, the wrapper raises that same exception whatever the
    protected call is; no resource request was made and the session is
    as it was. *)
Theorem failed_proactive_refresh_propagates {A : Type} (func : A -> M Response)
    (args : A) (st st1 st2 : state) (ex : exn) :
  oauth_credentials_are_expired w st = Return true st1 ->
  refresh_oauth_credentials w st1 = Raise ex st2 ->
  refresh_access_token_if_needed w func args st = Raise ex st2 /\
  gets (trace st2) = gets (trace st) /\
  session st2 = session st.
Proof.
  intros He Hr. split.
  - unfold refresh_access_token_if_needed. unfold bind at 1. rewrite He.
    unfold bind at 1. by rewrite Hr.
  - destruct (expired_inv _ _ _ He) as [-> _].
    destruct (refresh_oauth_credentials_raise _ _ _ Hr)
      as (Hs & seg & Ht & Hg & _).
    rewrite Ht, Hs. simpl. rewrite !gets_app, Hg.
    assert (gets [EvNow (clock w (trace st))] = 0%nat) as -> by reflexivity.
    split; [lia|done].
Qed.

(** The request for the folder reads the bearer token from the session
    it is given. *)
Lemma get_box_folder_body_reads_session (folder_id : string) (st : state)
    (credentials : pyval) :
  session st !! OAUTH_CREDENTIALS = Some credentials ->
  get_box_folder_body w str_other folder_id st =
    match py_getitem credentials "access_token" with
    | inr access_token =>
        requests_get w
          (build_box_api_url ("2.0/folders/" +:+ folder_id) None)
          {[ "Authorization" := "Bearer " +:+ format_s str_other access_token ]}
          st
    | inl ex => Raise ex st
    end.
Proof.
  intros Hc. unfold get_box_folder_body, session_getitem, bind.
  rewrite Hc. by destruct (py_getitem credentials "access_token").
Qed.

(** C9. After a 401 and a refresh that returned, the second request for
    the folder is built from the session as the refresh left it: its
    Authorization header carries the [access_token] of the body that
    the refresh exchange was answered with. *)
Theorem retry_carries_refreshed_token (folder_id : string)
    (st sA sB sC : state) (r1 : Response) :
  proactive_refresh w st = Return tt sA ->
  get_box_folder_body w str_other folder_id sA = Return r1 sB ->
  status_code r1 = 401 ->
  refresh_oauth_credentials w sB = Return tt sC ->
  exists data r T,
    trace sC = trace sB ++ [EvPost token_url data (Some r); EvNow T] /\
    session sC !! OAUTH_CREDENTIALS = Some (json r) /\
    match py_getitem (json r) "access_token" with
    | inr access_token =>
        get_box_folder w str_other folder_id st =
          requests_get w
            (build_box_api_url ("2.0/folders/" +:+ folder_id) None)
            {[ "Authorization" := "Bearer " +:+ format_s str_other access_token ]}
            sC
    | inl ex => get_box_folder w str_other folder_id st = Raise ex sC
    end.
Proof.
  intros Hp Hf H401 Hr.
  destruct (refresh_oauth_credentials_inv _ _ Hr)
    as (c & rt & cid & sec & r & n & _ & _ & _ & _ & _ & Hn & HsC).
  assert (Hcred : session sC !! OAUTH_CREDENTIALS = Some (json r)).
  { rewrite HsC. simpl. unfold stored. by rewrite lookup_insert_eq. }
  exists (refresh_form cid sec rt), r. eexists.
  split; [rewrite HsC; simpl; by rewrite <- app_assoc|].
  split; [exact Hcred|].
  unfold get_box_folder.
  rewrite (checked_auth_after_401 _ _ _ _ _ _ Hp Hf H401), Hr.
  rewrite (get_box_folder_body_reads_session _ _ _ Hcred).
  by destruct (py_getitem (json r) "access_token").
Qed.

(** *** The invariant of the session *)

Lemma issued_app (tr seg : list event) (c : pyval) (T : Z) :
  issued tr c T -> issued (tr ++ seg) c T.
Proof.
  intros (pre & post & url & data & r & -> & Hc).
  exists pre, (post ++ seg), url, data, r. split; [|done].
  by rewrite <- app_assoc.
Qed.

Lemma pair_steps_trans (s1 s2 s3 : gmap string pyval) :
  pair_steps s1 s2 -> pair_steps s2 s3 -> pair_steps s1 s3.
Proof.
  intros H12 H23. induction H23 as [|s' c e _ IH|s' _ IH].
  - done.
  - by apply pair_steps_store.
  - by apply pair_steps_clear with s'.
Qed.

Lemma advances_refl (st : state) : advances st st.
Proof.
  split; [exists []; by rewrite app_nil_r|]. split; [constructor|done].
Qed.

Lemma advances_trans (st1 st2 st3 : state) :
  advances st1 st2 -> advances st2 st3 -> advances st1 st3.
Proof.
  intros ([seg1 Ht1] & Hp1 & Hc1) ([seg2 Ht2] & Hp2 & Hc2).
  split; [|split].
  - exists (seg1 ++ seg2). by rewrite Ht2, Ht1, app_assoc.
  - by apply pair_steps_trans with (session st2).
  - auto.
Qed.

(** A run that leaves the session alone advances. *)
Lemma advances_quiet (st st' : state) :
  session st' = session st ->
  (exists seg, trace st' = trace st ++ seg) ->
  advances st st'.
Proof.
  intros Hs [seg Ht]. split; [by exists seg|]. split.
  - rewrite Hs. constructor.
  - intros [[Hc He]|(c & n & T & Hi & Hn & Hc & He)].
    + left. by rewrite Hs.
    + right. exists c, n, T. rewrite Hs, Ht. split; [by apply issued_app|done].
Qed.

Lemma advances_bind {A B : Type} (m : M A) (k : A -> M B) (st : state) :
  advances st (final (m st)) ->
  (forall a st1, m st = Return a st1 -> advances st1 (final (k a st1))) ->
  advances st (final (bind m k st)).
Proof.
  intros Hm Hk. unfold bind.
  destruct (m st) as [a st1|e st1] eqn:E; [|exact Hm].
  apply advances_trans with st1; [exact Hm | by apply Hk].
Qed.

(** Storing the body of the exchange that was just answered advances. *)
Lemma advances_store (st : state) (pre : list event) (url : string)
    (data : gmap string pyval) (r : Response) :
  trace st = pre ++ [EvPost url data (Some r)] ->
  advances st (final (set_oauth_credentials w (json r) st)).
Proof.
  intros Hpre.
  destruct (set_oauth_credentials w (json r) st) as [[] st'|e st'] eqn:Hs; simpl.
  - destruct (set_oauth_credentials_inv _ _ _ Hs) as (n & Hn & _ & ->).
    simpl. split; [|split].
    + by eexists [_].
    + apply pair_steps_store. constructor.
    + intros _. right. exists (json r), n, (clock w (trace st)). simpl.
      split; [|split; [exact Hn|split]].
      * exists pre, [], url, data, r. split; [|done].
        rewrite Hpre at 1. by rewrite <- app_assoc.
      * unfold stored. by rewrite lookup_insert_eq.
      * unfold stored. rewrite lookup_insert_ne by done.
        by rewrite lookup_insert_eq.
  - destruct (set_oauth_credentials_raise _ _ _ _ Hs) as [Hsess Htr].
    apply advances_quiet; [exact Hsess|].
    destruct Htr as [Htr|Htr]; rewrite Htr.
    + exists []. by rewrite app_nil_r.
    + by eexists [_].
Qed.

Lemma advances_get_token (kwargs : gmap string pyval) (st : state) :
  advances st (final (get_token w kwargs st)).
Proof.
  destruct (get_token w kwargs st) as [v st1|e st1] eqn:Hg; simpl.
  - destruct (get_token_inv _ _ _ _ Hg) as (cid & sec & r & _ & _ & _ & _ & ->).
    apply advances_quiet; [done|by eexists].
  - destruct (get_token_raise _ _ _ _ Hg) as [Hs Ht].
    apply advances_quiet; [exact Hs|].
    destruct Ht as [Ht|[data Ht]]; rewrite Ht.
    + exists []. by rewrite app_nil_r.
    + by eexists.
Qed.

Lemma advances_exchange (kwargs : gmap string pyval) (st : state) :
  advances st
    (final ((oauth_response <- get_token w kwargs ;;
             set_oauth_credentials w oauth_response) st)).
Proof.
  apply advances_bind; [apply advances_get_token|].
  intros v st1 Hg.
  destruct (get_token_inv _ _ _ _ Hg) as (cid & sec & r & _ & _ & _ & -> & ->).
  by eapply advances_store.
Qed.

Lemma advances_refresh (st : state) :
  advances st (final (refresh_oauth_credentials w st)).
Proof.
  unfold refresh_oauth_credentials.
  apply advances_bind.
  { unfold session_getitem.
    destruct (session st !! OAUTH_CREDENTIALS); apply advances_refl. }
  intros c st1 _. apply advances_bind.
  { destruct (py_getitem c "refresh_token"); apply advances_refl. }
  intros rt st2 _. apply advances_exchange.
Qed.

Lemma advances_expired (st : state) :
  advances st (final (oauth_credentials_are_expired w st)).
Proof.
  unfold oauth_credentials_are_expired. apply advances_bind.
  { apply advances_quiet; [done|]. by eexists. }
  intros now st1 _. apply advances_bind.
  { unfold session_getitem.
    destruct (session st1 !! OAUTH_EXPIRATION); apply advances_refl. }
  intros v st2 _. destruct (py_datetime_gt now v); apply advances_refl.
Qed.

Lemma advances_requests_get (url : string) (headers : gmap string string)
    (st : state) :
  advances st (final (requests_get w url headers st)).
Proof.
  unfold requests_get.
  destruct (http_get w (trace st) url headers);
    (apply advances_quiet; [done|by eexists]).
Qed.

Lemma advances_get_box_folder_body (folder_id : string) (st : state) :
  advances st (final (get_box_folder_body w str_other folder_id st)).
Proof.
  unfold get_box_folder_body. apply advances_bind.
  { unfold session_getitem.
    destruct (session st !! OAUTH_CREDENTIALS); apply advances_refl. }
  intros c st1 _. apply advances_bind.
  { destruct (py_getitem c "access_token"); apply advances_refl. }
  intros tok st2 _. apply advances_requests_get.
Qed.

(** The wrapper advances whenever the protected call does. *)
Lemma advances_checked_auth {A : Type} (func : A -> M Response) (args : A) :
  (forall st, advances st (final (func args st))) ->
  forall st, advances st (final (refresh_access_token_if_needed w func args st)).
Proof.
  intros Hf st. unfold refresh_access_token_if_needed.
  apply advances_bind; [apply advances_expired|].
  intros b st1 _. apply advances_bind.
  { destruct b; [apply advances_refresh | apply advances_refl]. }
  intros [] st2 _. apply advances_bind; [apply Hf|].
  intros r st3 _. destruct (status_code r =? 401); [|apply advances_refl].
  apply advances_bind; [apply advances_refresh|].
  intros [] st4 _. apply Hf.
Qed.

Lemma advances_handle (rq : request) (st : state) :
  advances st (final (handle w str_other rq st)).
Proof.
  destruct rq as [folder_id|code|]; simpl.
  - unfold box_folder, requires_auth. apply advances_bind.
    { apply advances_refl. }
    intros present st1 _. destruct (negb present); [apply advances_refl|].
    unfold box_folder_body. apply advances_bind.
    { apply advances_checked_auth. apply advances_get_box_folder_body. }
    intros r st2 _. apply advances_bind.
    { unfold session_getitem.
      destruct (session st2 !! OAUTH_CREDENTIALS); apply advances_refl. }
    intros c st3 _. apply advances_bind.
    { destruct (py_getitem c "access_token"); apply advances_refl. }
    intros tok st4 _. apply advances_refl.
  - unfold box_auth. apply advances_bind; [apply advances_get_token|].
    intros v st1 Hg. apply advances_bind.
    { destruct (get_token_inv _ _ _ _ Hg)
        as (cid & sec & r & _ & _ & _ & -> & ->).
      by eapply advances_store. }
    intros [] st2 _. apply advances_refl.
  - unfold logout, session_clear, bind, ret. simpl.
    split; [exists []; by rewrite app_nil_r|]. split.
    + apply pair_steps_clear with (session st). constructor.
    + intros _. by left.
Qed.

Lemma advances_serve (rqs : list request) (st : state) :
  advances st (serve w str_other rqs st).
Proof.
  revert st. induction rqs as [|rq rest IH]; intros st; simpl.
  - apply advances_refl.
  - apply advances_trans with (final (handle w str_other rq st)).
    + apply advances_handle.
    + apply IH.
Qed.

(** C6. Whatever requests are served, in whatever order and with
    whatever answers from the provider: from a state that satisfies the
    invariant the session ends in a state that satisfies it (no
    Credential Set and no Expiry Instant, or a Credential Set with the
    Expiry Instant computed from its own issuance), and the session has
    only changed by storing both fields or dropping both. *)
Theorem session_pair_invariant (rqs : list request) (st : state) :
  coherent st ->
  coherent (serve w str_other rqs st) /\
  pair_steps (session st) (session (serve w str_other rqs st)).
Proof.
  intros Hc. destruct (advances_serve rqs st) as (_ & Hp & Hk). auto.
Qed.

End Properties.


(** * The properties at concrete worlds *)

Import Demo.

Lemma stored_expiry_instant_witness :
  expires_in (token_body "tok2" "ref2" 3600) = Some 3600 /\
  set_oauth_credentials w_rotating (token_body "tok2" "ref2" 3600) st_empty =
    Return tt {| session := stored (token_body "tok2" "ref2" 3600)
                              (t0 + 3585 * 1000000) ∅;
                 trace := [EvNow t0] |} /\
  session {| session := stored (token_body "tok2" "ref2" 3600)
                          (t0 + 3585 * 1000000) ∅;
             trace := [EvNow t0] |} !! OAUTH_EXPIRATION =
    Some (PDatetime (t0 + 3585 * 1000000)).
Proof.
  assert (He : expires_in (token_body "tok2" "ref2" 3600) = Some 3600)
    by reflexivity.
  assert (Hs : set_oauth_credentials w_rotating
                 (token_body "tok2" "ref2" 3600) st_empty =
               Return tt {| session := stored (token_body "tok2" "ref2" 3600)
                                         (t0 + 3585 * 1000000) ∅;
                            trace := [EvNow t0] |})
    by (vm_compute; reflexivity).
  split; [exact He|]. split; [exact Hs|].
  exact (proj1 (stored_expiry_instant w_rotating _ _ _ _ He Hs)).
Defined.

Lemma store_without_expires_in_writes_nothing_witness :
  expires_in denied_body = None /\
  exists e st',
    set_oauth_credentials w_denying denied_body st_fresh = Raise e st' /\
    session st' = session st_fresh /\
    session st' !! OAUTH_CREDENTIALS = session st_fresh !! OAUTH_CREDENTIALS /\
    session st' !! OAUTH_EXPIRATION = session st_fresh !! OAUTH_EXPIRATION.
Proof.
  split; [reflexivity|].
  apply (store_without_expires_in_writes_nothing w_denying denied_body st_fresh).
  reflexivity.
Defined.

Lemma expired_iff_now_after_expiry_witness :
  session st_stale !! OAUTH_EXPIRATION = Some (PDatetime (t0 - 1)) /\
  exists b st',
    oauth_credentials_are_expired w_rotating st_stale = Return b st' /\
    (b = true <-> clock w_rotating (trace st_stale) > t0 - 1) /\
    (clock w_rotating (trace st_stale) = t0 - 1 -> b = false) /\
    session st' = session st_stale /\
    trace st' = trace st_stale ++ [EvNow (clock w_rotating (trace st_stale))].
Proof.
  split; [reflexivity|].
  apply (expired_iff_now_after_expiry w_rotating st_stale (t0 - 1)).
  reflexivity.
Defined.

Lemma unauthenticated_redirects_before_any_call_witness :
  session st_empty !! OAUTH_CREDENTIALS = None /\
  box_folder w_rotating str0 "42" st_empty = Return (Redirect "/login") st_empty.
Proof.
  split; [reflexivity|].
  apply (unauthenticated_redirects_before_any_call w_rotating str0 "42" st_empty).
  reflexivity.
Defined.

Lemma get_token_returns_body_unchecked_witness :
  environ w_denying !! "BOX_CLIENT_ID" = Some "id" /\
  environ w_denying !! "BOX_CLIENT_SECRET" = Some "secret" /\
  get_token w_denying code_abc st_empty =
    Return denied_body
      {| session := ∅;
         trace := [EvPost token_url (token_form "id" "secret" code_abc)
                     (Some (mkResponse 400 denied_body))] |}.
Proof.
  split; [reflexivity|]. split; [reflexivity|].
  exact (get_token_returns_body_unchecked w_denying code_abc st_empty
           "id" "secret" eq_refl eq_refl).
Defined.

(** C3, as stated, fails: the provider's refusal has none of the
    required fields and [get_token] returns it like any other body. *)
Lemma get_token_accepts_incomplete_body :
  has_required_fields denied_body = false /\
  get_token w_denying code_abc st_empty =
    Return denied_body
      {| session := ∅;
         trace := [EvPost token_url (token_form "id" "secret" code_abc)
                     (Some (mkResponse 400 denied_body))] |} /\
  ~ acquire_validates w_denying code_abc st_empty.
Proof.
  split; [reflexivity|]. split; [vm_compute; reflexivity|].
  unfold acquire_validates.
  replace (get_token w_denying code_abc st_empty)
    with (Return denied_body
            {| session := ∅;
               trace := [EvPost token_url (token_form "id" "secret" code_abc)
                           (Some (mkResponse 400 denied_body))] |})
    by (vm_compute; reflexivity).
  discriminate.
Qed.

Lemma reactive_refresh_retries_once_witness :
  proactive_refresh w_rejecting st_fresh =
    Return tt (after_check w_rejecting st_fresh) /\
  get_box_folder_body w_rejecting str0 "0" (after_check w_rejecting st_fresh) =
    Return answer_401 (after_first_call w_rejecting st_fresh) /\
  status_code answer_401 = 401 /\
  match refresh_oauth_credentials w_rejecting
          (after_first_call w_rejecting st_fresh) with
  | Return _ sC =>
      refresh_access_token_if_needed w_rejecting
        (get_box_folder_body w_rejecting str0) "0" st_fresh =
        get_box_folder_body w_rejecting str0 "0" sC /\
      exists client_id client_secret credentials refresh_token r T,
        session (after_first_call w_rejecting st_fresh) !! OAUTH_CREDENTIALS =
          Some credentials /\
        py_getitem credentials "refresh_token" = inr refresh_token /\
        trace sC =
          trace (after_first_call w_rejecting st_fresh)
            ++ [EvPost token_url
                  (refresh_form client_id client_secret refresh_token) (Some r);
                EvNow T]
  | Raise e sC =>
      refresh_access_token_if_needed w_rejecting
        (get_box_folder_body w_rejecting str0) "0" st_fresh = Raise e sC /\
      session sC = session (after_first_call w_rejecting st_fresh) /\
      gets (trace sC) = gets (trace (after_first_call w_rejecting st_fresh))
  end.
Proof.
  assert (Hp : proactive_refresh w_rejecting st_fresh =
               Return tt (after_check w_rejecting st_fresh))
    by (vm_compute; reflexivity).
  assert (Hf : get_box_folder_body w_rejecting str0 "0"
                 (after_check w_rejecting st_fresh) =
               Return answer_401 (after_first_call w_rejecting st_fresh))
    by (vm_compute; reflexivity).
  split; [exact Hp|]. split; [exact Hf|]. split; [reflexivity|].
  exact (reactive_refresh_retries_once w_rejecting
           (get_box_folder_body w_rejecting str0) "0" st_fresh _ _ _
           Hp Hf eq_refl).
Defined.

(** C1, as stated, fails: the first request is answered with a 401, the
    provider refuses the refresh, and the wrapper raises after a single
    request for the folder. *)
Lemma refused_refresh_is_not_retried :
  refresh_access_token_if_needed w_denying
    (get_box_folder_body w_denying str0) "0" st_fresh =
    Raise TypeError (after_reactive_refresh w_denying st_fresh) /\
  gets (trace (after_reactive_refresh w_denying st_fresh)) = 1%nat /\
  ~ retried_after_401 w_denying str0 "0" st_fresh.
Proof.
  assert (Hw : get_box_folder w_denying str0 "0" st_fresh =
               Raise TypeError (after_reactive_refresh w_denying st_fresh))
    by (vm_compute; reflexivity).
  split; [exact Hw|]. split; [reflexivity|].
  intros H.
  destruct (H (after_check w_denying st_fresh) answer_401
              (after_first_call w_denying st_fresh))
    as (r2 & sD & Hret & _).
  - vm_compute. reflexivity.
  - vm_compute. reflexivity.
  - reflexivity.
  - rewrite Hw in Hret. discriminate.
Qed.

Lemma proactive_refresh_precedes_call_witness :
  session st_stale !! OAUTH_EXPIRATION = Some (PDatetime (t0 - 1)) /\
  let t := clock w_rotating (trace st_stale) in
  let st1 := {| session := session st_stale;
                trace := trace st_stale ++ [EvNow t] |} in
  if t0 - 1 <? t then
    match refresh_oauth_credentials w_rotating st1 with
    | Return _ st2 =>
        refresh_access_token_if_needed w_rotating
          (get_box_folder_body w_rotating str0) "0" st_stale =
          call_with_reactive_refresh w_rotating
            (get_box_folder_body w_rotating str0) "0" st2 /\
        exists client_id client_secret credentials refresh_token r n T,
          session st_stale !! OAUTH_CREDENTIALS = Some credentials /\
          py_getitem credentials "refresh_token" = inr refresh_token /\
          trace st2 =
            trace st_stale
              ++ [EvNow t;
                  EvPost token_url
                    (refresh_form client_id client_secret refresh_token) (Some r);
                  EvNow T] /\
          expires_in (json r) = Some n /\
          session st2 =
            stored (json r) (T + (n - 15) * 1000000) (session st_stale)
    | Raise ex st2 =>
        refresh_access_token_if_needed w_rotating
          (get_box_folder_body w_rotating str0) "0" st_stale = Raise ex st2
    end
  else
    refresh_access_token_if_needed w_rotating
      (get_box_folder_body w_rotating str0) "0" st_stale =
      call_with_reactive_refresh w_rotating
        (get_box_folder_body w_rotating str0) "0" st1.
Proof.
  split; [reflexivity|].
  exact (proactive_refresh_precedes_call w_rotating
           (get_box_folder_body w_rotating str0) "0" st_stale (t0 - 1) eq_refl).
Defined.

Lemma failed_proactive_refresh_propagates_witness :
  oauth_credentials_are_expired w_denying st_stale =
    Return true (log (EvNow t0) st_stale) /\
  refresh_oauth_credentials w_denying (log (EvNow t0) st_stale) =
    Raise TypeError
      (final (refresh_oauth_credentials w_denying (log (EvNow t0) st_stale))) /\
  refresh_access_token_if_needed w_denying
    (get_box_folder_body w_denying str0) "0" st_stale =
    Raise TypeError
      (final (refresh_oauth_credentials w_denying (log (EvNow t0) st_stale))) /\
  gets (trace (final (refresh_oauth_credentials w_denying
                        (log (EvNow t0) st_stale)))) =
    gets (trace st_stale) /\
  session (final (refresh_oauth_credentials w_denying (log (EvNow t0) st_stale)))
    = session st_stale.
Proof.
  assert (He : oauth_credentials_are_expired w_denying st_stale =
               Return true (log (EvNow t0) st_stale))
    by (vm_compute; reflexivity).
  assert (Hr : refresh_oauth_credentials w_denying (log (EvNow t0) st_stale) =
               Raise TypeError
                 (final (refresh_oauth_credentials w_denying
                           (log (EvNow t0) st_stale))))
    by (vm_compute; reflexivity).
  split; [exact He|]. split; [exact Hr|].
  exact (failed_proactive_refresh_propagates w_denying
           (get_box_folder_body w_denying str0) "0" _ _ _ _ He Hr).
Defined.

Lemma retry_carries_refreshed_token_witness :
  proactive_refresh w_rotating st_fresh =
    Return tt (after_check w_rotating st_fresh) /\
  get_box_folder_body w_rotating str0 "0" (after_check w_rotating st_fresh) =
    Return answer_401 (after_first_call w_rotating st_fresh) /\
  status_code answer_401 = 401 /\
  refresh_oauth_credentials w_rotating (after_first_call w_rotating st_fresh) =
    Return tt (after_reactive_refresh w_rotating st_fresh) /\
  exists data r T,
    trace (after_reactive_refresh w_rotating st_fresh) =
      trace (after_first_call w_rotating st_fresh)
        ++ [EvPost token_url data (Some r); EvNow T] /\
    session (after_reactive_refresh w_rotating st_fresh) !! OAUTH_CREDENTIALS =
      Some (json r) /\
    match py_getitem (json r) "access_token" with
    | inr access_token =>
        get_box_folder w_rotating str0 "0" st_fresh =
          requests_get w_rotating
            (build_box_api_url ("2.0/folders/" +:+ "0") None)
            {[ "Authorization" := "Bearer " +:+ format_s str0 access_token ]}
            (after_reactive_refresh w_rotating st_fresh)
    | inl ex =>
        get_box_folder w_rotating str0 "0" st_fresh =
          Raise ex (after_reactive_refresh w_rotating st_fresh)
    end.
Proof.
  assert (Hp : proactive_refresh w_rotating st_fresh =
               Return tt (after_check w_rotating st_fresh))
    by (vm_compute; reflexivity).
  assert (Hf : get_box_folder_body w_rotating str0 "0"
                 (after_check w_rotating st_fresh) =
               Return answer_401 (after_first_call w_rotating st_fresh))
    by (vm_compute; reflexivity).
  assert (Hr : refresh_oauth_credentials w_rotating
                 (after_first_call w_rotating st_fresh) =
               Return tt (after_reactive_refresh w_rotating st_fresh))
    by (vm_compute; reflexivity).
  split; [exact Hp|]. split; [exact Hf|]. split; [reflexivity|].
  split; [exact Hr|].
  exact (retry_carries_refreshed_token w_rotating str0 "0" st_fresh _ _ _ _
           Hp Hf eq_refl Hr).
Defined.

Lemma session_pair_invariant_witness :
  coherent st_empty /\
  coherent (serve w_rotating str0
              [GetBoxAuth (PStr "abc"); GetBoxFolder "0"; GetLogout;
               GetBoxFolder "0"] st_empty) /\
  pair_steps (session st_empty)
    (session (serve w_rotating str0
                [GetBoxAuth (PStr "abc"); GetBoxFolder "0"; GetLogout;
                 GetBoxFolder "0"] st_empty)).
Proof.
  assert (Hc : coherent st_empty) by (left; split; reflexivity).
  split; [exact Hc|].
  exact (session_pair_invariant w_rotating str0 _ st_empty Hc).
Defined.

(** The two requests of the specification's end-to-end scenario: the
    authorization code is exchanged, then the root folder is listed with
    the token that was issued. *)
Example box_auth_then_box_folder :
  box_auth w_rotating (PStr "abc") st_empty =
    Return (Redirect "/box-folder/0")
      (final (box_auth w_rotating (PStr "abc") st_empty)) /\
  exists st',
    box_folder w_rotating str0 "0"
      (final (box_auth w_rotating (PStr "abc") st_empty)) =
      Return (Jsonify (PDict {[ "access_token" := PStr "tok2";
                                "api_response" := folder_body ]})) st' /\
    gets (trace st') = 1%nat /\ posts (trace st') = 1%nat.
Proof.
  split; [vm_compute; reflexivity|].
  eexists. split; [vm_compute; reflexivity|]. split; reflexivity.
Qed.

(** * Further properties of the code *)

Section Further.

Variable w : World.
Variable str_other : pyval -> string.

(** ** What one invocation can cost *)

Lemma store_all_app (l1 l2 : list (pyval * Z)) (s : gmap string pyval) :
  store_all (l1 ++ l2) s = store_all l2 (store_all l1 s).
Proof.
  revert s. induction l1 as [|[c e] l1 IH]; intros s; simpl; [done|apply IH].
Qed.

Lemma within_quiet (g p : nat) (st st' : state) (seg : list event) :
  session st' = session st ->
  trace st' = trace st ++ seg ->
  (gets seg <= g)%nat -> (posts seg <= p)%nat ->
  within g p st st'.
Proof.
  intros Hs Ht Hg Hp. exists seg, []. simpl. repeat split; try done. lia.
Qed.

Lemma within_refl (st : state) : within 0 0 st st.
Proof. apply within_quiet with []; try done. by rewrite app_nil_r. Qed.

Lemma within_weaken (g p g' p' : nat) (st st' : state) :
  (g <= g')%nat -> (p <= p')%nat -> within g p st st' -> within g' p' st st'.
Proof.
  intros Hg Hp (seg & l & Ht & Hgs & Hps & Hl & Hs).
  exists seg, l. repeat split; try done; lia.
Qed.

Lemma within_trans (g1 p1 g2 p2 : nat) (st1 st2 st3 : state) :
  within g1 p1 st1 st2 -> within g2 p2 st2 st3 ->
  within (g1 + g2) (p1 + p2) st1 st3.
Proof.
  intros (seg1 & l1 & Ht1 & Hg1 & Hp1 & Hl1 & Hs1)
         (seg2 & l2 & Ht2 & Hg2 & Hp2 & Hl2 & Hs2).
  exists (seg1 ++ seg2), (l1 ++ l2).
  rewrite gets_app, posts_app, length_app, store_all_app.
  repeat split; try lia.
  - by rewrite Ht2, Ht1, app_assoc.
  - by rewrite Hs2, Hs1.
Qed.

Lemma within_bind (g1 p1 g2 p2 : nat) {A B : Type} (m : M A) (k : A -> M B)
    (st : state) :
  within g1 p1 st (final (m st)) ->
  (forall a st1, m st = Return a st1 -> within g2 p2 st1 (final (k a st1))) ->
  within (g1 + g2) (p1 + p2) st (final (bind m k st)).
Proof.
  intros Hm Hk. unfold bind.
  destruct (m st) as [a st1|e st1] eqn:E.
  - apply within_trans with st1; [exact Hm | by apply Hk].
  - apply within_weaken with g1 p1; [lia | lia | exact Hm].
Qed.

Lemma within_session_getitem (key : string) (st : state) :
  within 0 0 st (final (session_getitem key st)).
Proof.
  unfold session_getitem. destruct (session st !! key); apply within_refl.
Qed.

Lemma within_lift {A : Type} (r : exn + A) (st : state) :
  within 0 0 st (final (lift r st)).
Proof. destruct r; apply within_refl. Qed.

Lemma within_refresh (st : state) :
  within 0 1 st (final (refresh_oauth_credentials w st)).
Proof.
  destruct (refresh_oauth_credentials w st) as [[] st'|e st'] eqn:Hr; simpl.
  - destruct (refresh_oauth_credentials_inv _ _ _ Hr)
      as (c & rt & cid & sec & r & n & _ & _ & _ & _ & _ & _ & ->).
    eexists [_; _], [(_, _)]. simpl.
    split; [by rewrite <- app_assoc|]. unfold gets, posts. simpl.
    repeat split; lia.
  - destruct (refresh_oauth_credentials_raise _ _ _ _ Hr)
      as (Hs & seg & Ht & Hg & Hp).
    apply within_quiet with seg; try done. lia.
Qed.

Lemma within_expired (st : state) :
  within 0 0 st (final (oauth_credentials_are_expired w st)).
Proof.
  unfold oauth_credentials_are_expired.
  apply (within_bind 0 0 0 0).
  { by apply within_quiet with [EvNow (clock w (trace st))]. }
  intros now st1 _. apply (within_bind 0 0 0 0).
  { apply within_session_getitem. }
  intros v st2 _. apply within_lift.
Qed.

Lemma within_requests_get (url : string) (headers : gmap string string)
    (st : state) :
  within 1 0 st (final (requests_get w url headers st)).
Proof.
  unfold requests_get.
  destruct (http_get w (trace st) url headers); simpl;
    (eapply within_quiet; [done | done | unfold gets; simpl; lia
                                | unfold posts; simpl; lia ]).
Qed.

Lemma within_get_box_folder_body (folder_id : string) (st : state) :
  within 1 0 st (final (get_box_folder_body w str_other folder_id st)).
Proof.
  unfold get_box_folder_body.
  apply (within_bind 0 0 1 0); [apply within_session_getitem|].
  intros c st1 _. apply (within_bind 0 0 1 0); [apply within_lift|].
  intros tok st2 _. apply within_requests_get.
Qed.

Lemma within_checked_auth {A : Type} (func : A -> M Response) (args : A) :
  (forall st, within 1 0 st (final (func args st))) ->
  forall st, within 2 2 st (final (refresh_access_token_if_needed w func args st)).
Proof.
  intros Hf st. unfold refresh_access_token_if_needed.
  apply (within_bind 0 0 2 2); [apply within_expired|].
  intros b st1 _. apply (within_bind 0 1 2 1).
  { destruct b; [apply within_refresh|].
    apply within_weaken with 0%nat 0%nat; [lia|lia|apply within_refl]. }
  intros [] st2 _. apply (within_bind 1 0 1 1); [apply Hf|].
  intros r st3 _. destruct (status_code r =? 401).
  - apply (within_bind 0 1 1 0); [apply within_refresh|].
    intros [] st4 _. apply Hf.
  - apply within_weaken with 0%nat 0%nat; [lia|lia|apply within_refl].
Qed.

(** X1. One request for a folder, guarded or not: the trace only grows,
    by at most two resource requests and two token exchanges, and the
    session changes by no more stores than exchanges were made. *)
Theorem folder_request_budget (folder_id : string) (st : state) :
  within 2 2 st (final (get_box_folder w str_other folder_id st)) /\
  within 2 2 st (final (box_folder w str_other folder_id st)).
Proof.
  assert (Hg : forall st0,
             within 2 2 st0 (final (get_box_folder w str_other folder_id st0))).
  { intros st0. apply within_checked_auth. apply within_get_box_folder_body. }
  split; [apply Hg|].
  unfold box_folder, requires_auth.
  apply (within_bind 0 0 2 2); [apply within_refl|].
  intros present st1 _. destruct (negb present).
  { apply within_weaken with 0%nat 0%nat; [lia|lia|apply within_refl]. }
  unfold box_folder_body.
  apply (within_bind 2 2 0 0); [apply Hg|].
  intros r st2 _. apply (within_bind 0 0 0 0); [apply within_session_getitem|].
  intros c st3 _. apply (within_bind 0 0 0 0); [apply within_lift|].
  intros tok st4 _. apply within_refl.
Qed.

(** ** The wrapper at its edges *)

(** X2. Once the refresh before the call is done, a first answer that
    is not a 401 is the wrapper's result, from the state the call left;
    an exception of the first call is the wrapper's exception.  No
    refresh follows either. *)
Theorem first_answer_passes_through {A : Type} (func : A -> M Response)
    (args : A) (st sA : state) :
  proactive_refresh w st = Return tt sA ->
  match func args sA with
  | Return r sB =>
      if status_code r =? 401 then True
      else refresh_access_token_if_needed w func args st = Return r sB
  | Raise e sB => refresh_access_token_if_needed w func args st = Raise e sB
  end.
Proof.
  intros Hp.
  assert (Hw : refresh_access_token_if_needed w func args st =
               call_with_reactive_refresh w func args sA).
  { rewrite checked_auth_phases. unfold bind at 1. by rewrite Hp. }
  unfold call_with_reactive_refresh, bind in Hw.
  destruct (func args sA) as [r sB|e sB]; [|exact Hw].
  destruct (status_code r =? 401); [exact I|exact Hw].
Qed.

(** X3. The wrapper has no guard of its own: on a session without an
    Expiry Instant it raises [KeyError] right after reading the clock,
    whatever the protected call is. *)
Theorem wrapper_needs_expiry {A : Type} (func : A -> M Response) (args : A)
    (st : state) :
  session st !! OAUTH_EXPIRATION = None ->
  refresh_access_token_if_needed w func args st =
    Raise (KeyError OAUTH_EXPIRATION)
      {| session := session st;
         trace := trace st ++ [EvNow (clock w (trace st))] |}.
Proof.
  intros He. unfold refresh_access_token_if_needed.
  unfold bind at 1.
  unfold oauth_credentials_are_expired, datetime_now, session_getitem.
  unfold_py. by rewrite He.
Qed.

(** X4. An expired session whose Credential Set gives no refresh token
    ends the invocation before anything is sent: the wrapper raises what
    the lookup raised, and only the clock was read. *)
Theorem expired_without_refresh_token {A : Type} (func : A -> M Response)
    (args : A) (st : state) (e : Z) (credentials : pyval) (ex : exn) :
  session st !! OAUTH_EXPIRATION = Some (PDatetime e) ->
  e < clock w (trace st) ->
  session st !! OAUTH_CREDENTIALS = Some credentials ->
  py_getitem credentials "refresh_token" = inl ex ->
  refresh_access_token_if_needed w func args st =
    Raise ex {| session := session st;
                trace := trace st ++ [EvNow (clock w (trace st))] |}.
Proof.
  intros He Hlt Hc Hrt.
  rewrite (checked_auth_after_expiry_check _ _ _ _ _ He).
  apply Z.ltb_lt in Hlt. rewrite Hlt.
  unfold bind at 1. unfold refresh_oauth_credentials, session_getitem.
  unfold bind at 1. simpl. rewrite Hc.
  unfold bind at 1. by rewrite Hrt.
Qed.

(** ** The token exchange at its edges *)

(** X5. Without the client identifier or the client secret in the
    environment, [get_token] and [box_auth] raise [KeyError] for the
    missing name and the state is the one they started from: nothing is
    sent. *)
Theorem unconfigured_client_sends_nothing (kwargs : gmap string pyval)
    (code : pyval) (st : state) :
  match environ w !! "BOX_CLIENT_ID", environ w !! "BOX_CLIENT_SECRET" with
  | None, _ =>
      get_token w kwargs st = Raise (KeyError "BOX_CLIENT_ID") st /\
      box_auth w code st = Raise (KeyError "BOX_CLIENT_ID") st
  | Some _, None =>
      get_token w kwargs st = Raise (KeyError "BOX_CLIENT_SECRET") st /\
      box_auth w code st = Raise (KeyError "BOX_CLIENT_SECRET") st
  | Some _, Some _ => True
  end.
Proof.
  unfold box_auth, bind, get_token, environ_getitem.
  destruct (environ w !! "BOX_CLIENT_ID") as [cid|]; [|done].
  by destruct (environ w !! "BOX_CLIENT_SECRET") as [sec|].
Qed.

Lemma token_form_fields (client_id client_secret : string)
    (kwargs : gmap string pyval) :
  token_form client_id client_secret kwargs !! "client_id"
    = Some (PStr client_id) /\
  token_form client_id client_secret kwargs !! "client_secret"
    = Some (PStr client_secret) /\
  token_form client_id client_secret kwargs !! "grant_type"
    = Some (default (PStr "authorization_code") (kwargs !! "grant_type")) /\
  forall key,
    key <> "client_id" -> key <> "client_secret" -> key <> "grant_type" ->
    token_form client_id client_secret kwargs !! key = kwargs !! key.
Proof.
  unfold token_form. split; [|split; [|split]].
  - rewrite lookup_insert_ne by done. by rewrite lookup_insert_eq.
  - by rewrite lookup_insert_eq.
  - do 2 (rewrite lookup_insert_ne by done).
    destruct (kwargs !! "grant_type") as [g|] eqn:Hg; simpl; [done|].
    by rewrite lookup_insert_eq.
  - intros key H1 H2 H3. do 2 (rewrite lookup_insert_ne by done).
    destruct (kwargs !! "grant_type") as [g|] eqn:Hg; [done|].
    by rewrite lookup_insert_ne.
Qed.

(** X6. With the client configured, [get_token] sends exactly one form:
    its [client_id] and [client_secret] are the environment's whatever
    the caller passed under those names, its [grant_type] is the
    caller's or, by default, the authorization-code grant, and every
    other field is the caller's. *)
Theorem posted_form_fields (kwargs : gmap string pyval) (st : state)
    (client_id client_secret : string) :
  environ w !! "BOX_CLIENT_ID" = Some client_id ->
  environ w !! "BOX_CLIENT_SECRET" = Some client_secret ->
  exists data answer,
    trace (final (get_token w kwargs st)) =
      trace st ++ [EvPost token_url data answer] /\
    data !! "client_id" = Some (PStr client_id) /\
    data !! "client_secret" = Some (PStr client_secret) /\
    data !! "grant_type"
      = Some (default (PStr "authorization_code") (kwargs !! "grant_type")) /\
    forall key,
      key <> "client_id" -> key <> "client_secret" -> key <> "grant_type" ->
      data !! key = kwargs !! key.
Proof.
  intros Hid Hsec.
  exists (token_form client_id client_secret kwargs),
         (http_post w (trace st) token_url
            (token_form client_id client_secret kwargs)).
  split; [|apply token_form_fields].
  rewrite (get_token_post _ _ _ _ _ Hid Hsec).
  by destruct (http_post w (trace st) token_url _).
Qed.

(** X7. [get_token] neither reads nor writes the session: from two
    states with the same trace it gives the same value or the same
    exception and the same trace, and each session is as it was. *)
Theorem get_token_ignores_session (kwargs : gmap string pyval)
    (s1 s2 : gmap string pyval) (tr : list event) :
  match get_token w kwargs {| session := s1; trace := tr |},
        get_token w kwargs {| session := s2; trace := tr |} with
  | Return v1 st1, Return v2 st2 =>
      v1 = v2 /\ trace st1 = trace st2 /\ session st1 = s1 /\ session st2 = s2
  | Raise e1 st1, Raise e2 st2 =>
      e1 = e2 /\ trace st1 = trace st2 /\ session st1 = s1 /\ session st2 = s2
  | _, _ => False
  end.
Proof.
  unfold get_token, environ_getitem, requests_post.
  destruct (environ w !! "BOX_CLIENT_ID") as [cid|]; [|done].
  destruct (environ w !! "BOX_CLIENT_SECRET") as [sec|]; [|done].
  unfold_py. by destruct (http_post w tr _ _).
Qed.

(** ** The routes *)

(** X8. [box_auth] is all or nothing.  When it returns, it redirects to
    the root folder after one authorization-code exchange that carried
    the code, and the session holds the answer with its Expiry Instant;
    when it raises, the session is as it was. *)
Theorem box_auth_all_or_nothing (code : pyval) (st : state) :
  match box_auth w code st with
  | Return result st' =>
      result = Redirect "/box-folder/0" /\
      exists client_id client_secret r n,
        let data := token_form client_id client_secret {[ "code" := code ]} in
        let tr := trace st ++ [EvPost token_url data (Some r)] in
        data !! "code" = Some code /\
        data !! "grant_type" = Some (PStr "authorization_code") /\
        expires_in (json r) = Some n /\
        trace st' = tr ++ [EvNow (clock w tr)] /\
        session st' =
          stored (json r) (clock w tr + (n - 15) * 1000000) (session st)
  | Raise e st' => session st' = session st
  end.
Proof.
  unfold box_auth. unfold bind at 1.
  destruct (get_token w _ st) as [v st1|e st1] eqn:Hg.
  2:{ by destruct (get_token_raise _ _ _ _ _ Hg). }
  destruct (get_token_inv _ _ _ _ _ Hg)
    as (cid & sec & r & _ & _ & _ & -> & ->).
  unfold bind at 1.
  destruct (set_oauth_credentials w (json r) _) as [[] st2|e st2] eqn:Hs.
  2:{ by destruct (set_oauth_credentials_raise _ _ _ _ _ Hs) as [-> _]. }
  destruct (set_oauth_credentials_inv _ _ _ _ Hs) as (n & Hn & _ & ->).
  split; [reflexivity|]. exists cid, sec, r, n.
  destruct (token_form_fields cid sec {[ "code" := code ]})
    as (_ & _ & Hgrant & Hother).
  split; [|split; [|split; [exact Hn|split; reflexivity]]].
  - rewrite Hother by done. by rewrite lookup_singleton_eq.
  - rewrite Hgrant. by rewrite lookup_singleton_ne.
Qed.

(** X9. After [logout], whatever the session held, a request for any
    folder is answered with the redirect to the login route; neither
    request reads the clock or reaches the provider. *)
Theorem logout_then_folder_redirects (folder_id : string) (st : state) :
  exists text,
    logout st = Return (Text text) {| session := ∅; trace := trace st |} /\
    box_folder w str_other folder_id {| session := ∅; trace := trace st |} =
      Return (Redirect "/login") {| session := ∅; trace := trace st |}.
Proof.
  eexists. split; [reflexivity|].
  unfold box_folder, requires_auth, session_contains. unfold_py.
  rewrite lookup_empty. rewrite bool_decide_eq_false_2; [done|].
  intros [x Hx]. discriminate.
Qed.

(** The protected call sends at most one request, to the URL of the
    folder, with the token the session holds. *)
Lemma get_box_folder_body_return (folder_id : string) (st st' : state)
    (r : Response) :
  get_box_folder_body w str_other folder_id st = Return r st' ->
  exists credentials access_token,
    session st !! OAUTH_CREDENTIALS = Some credentials /\
    py_getitem credentials "access_token" = inr access_token /\
    st' = {| session := session st;
             trace := trace st ++
               [EvGet (folder_url folder_id)
                  {[ "Authorization" :=
                       "Bearer " +:+ format_s str_other access_token ]}
                  (Some r)] |}.
Proof.
  unfold get_box_folder_body, session_getitem. unfold bind at 1.
  destruct (session st !! OAUTH_CREDENTIALS) as [c|] eqn:Hc; [|discriminate].
  unfold bind at 1.
  destruct (py_getitem c "access_token") as [e|a] eqn:Ha; [discriminate|].
  unfold lift, ret, requests_get. cbn beta iota zeta.
  fold (folder_url folder_id).
  destruct (http_get w (trace st) _ _) as [r0|] eqn:Hr; [|discriminate].
  intros [= <- <-]. by exists c, a.
Qed.

(** X16. The protected call never sends a request it has no token for,
    and never changes the session: it ends with the trace as it was, or
    with one more request, for that folder, under the [access_token] of
    the Credential Set in the session. *)
Theorem protected_call_uses_stored_token (folder_id : string) (st : state) :
  session (final (get_box_folder_body w str_other folder_id st)) = session st /\
  (trace (final (get_box_folder_body w str_other folder_id st)) = trace st \/
   exists credentials access_token answer,
     session st !! OAUTH_CREDENTIALS = Some credentials /\
     py_getitem credentials "access_token" = inr access_token /\
     trace (final (get_box_folder_body w str_other folder_id st)) =
       trace st ++
         [EvGet (folder_url folder_id)
            {[ "Authorization" :=
                 "Bearer " +:+ format_s str_other access_token ]}
            answer]).
Proof.
  destruct (session st !! OAUTH_CREDENTIALS) as [c|] eqn:Hc.
  2:{ unfold get_box_folder_body, session_getitem, bind. rewrite Hc.
      split; [done|by left]. }
  rewrite (get_box_folder_body_reads_session _ _ _ _ _ Hc).
  destruct (py_getitem c "access_token") as [e|a] eqn:Ha.
  { split; [done|by left]. }
  unfold requests_get. fold (folder_url folder_id).
  destruct (http_get w (trace st) (folder_url folder_id) _) as [r|] eqn:Hr;
    simpl; (split; [done|]); right; by exists c, a; eexists.
Qed.

(** Whatever the wrapper returns is what one run of the protected call
    returned, and the state is the one that run left. *)
Lemma checked_auth_return {A : Type} (func : A -> M Response) (args : A)
    (st st' : state) (r : Response) :
  refresh_access_token_if_needed w func args st = Return r st' ->
  exists s, func args s = Return r st'.
Proof.
  rewrite checked_auth_phases. unfold bind at 1.
  destruct (proactive_refresh w st) as [[] sA|e sA]; [|discriminate].
  unfold call_with_reactive_refresh. unfold bind at 1.
  destruct (func args sA) as [r1 sB|e sB] eqn:Hf; [|discriminate].
  destruct (status_code r1 =? 401).
  - unfold bind.
    destruct (refresh_oauth_credentials w sB) as [[] sC|e sC]; [|discriminate].
    intros H. by exists sC.
  - intros [= <- <-]. by exists sA.
Qed.

(** X11. Whenever the folder route returns, it is the redirect to the
    login route with nothing done, or a page whose [api_response] is the
    body of the last answer, whatever its status, and whose
    [access_token] is the one in the session at the end, which is the
    one the last request carried. *)
Theorem folder_page_shows_last_token (folder_id : string) (st st' : state)
    (result : HttpResult) :
  box_folder w str_other folder_id st = Return result st' ->
  (result = Redirect "/login" /\ st' = st) \/
  exists pre credentials access_token r,
    trace st' = pre ++
      [EvGet (folder_url folder_id)
         {[ "Authorization" := "Bearer " +:+ format_s str_other access_token ]}
         (Some r)] /\
    session st' !! OAUTH_CREDENTIALS = Some credentials /\
    py_getitem credentials "access_token" = inr access_token /\
    result = folder_page access_token (json r).
Proof.
  unfold box_folder, requires_auth, session_contains. unfold bind at 1.
  destruct (negb _).
  { intros [= <- <-]. by left. }
  unfold box_folder_body. unfold bind at 1.
  destruct (get_box_folder w str_other folder_id st) as [r s1|e s1] eqn:Hg;
    [|discriminate].
  destruct (checked_auth_return _ _ _ _ _ Hg) as [s Hs].
  destruct (get_box_folder_body_return _ _ _ _ Hs) as (c & a & Hc & Ha & ->).
  unfold session_getitem. unfold bind at 1. simpl. rewrite Hc.
  unfold bind. rewrite Ha. simpl. intros [= <- <-].
  right. exists (trace s), c, a, r. by repeat split.
Qed.

(** X10. The plain case: the Credential Set has not run out and the
    provider answers the request with anything but a 401.  The folder
    route makes that one request, under the stored token, and no
    exchange; the page carries the stored token and the body of the
    answer, and the session is as it was. *)
Theorem folder_request_with_fresh_token (folder_id : string) (st : state)
    (e : Z) (d : gmap string pyval) (access_token : pyval) (r : Response) :
  session st !! OAUTH_EXPIRATION = Some (PDatetime e) ->
  clock w (trace st) <= e ->
  session st !! OAUTH_CREDENTIALS = Some (PDict d) ->
  d !! "access_token" = Some access_token ->
  http_get w (trace st ++ [EvNow (clock w (trace st))]) (folder_url folder_id)
    {[ "Authorization" := "Bearer " +:+ format_s str_other access_token ]}
    = Some r ->
  status_code r <> 401 ->
  box_folder w str_other folder_id st =
    Return (folder_page access_token (json r))
      {| session := session st;
         trace := trace st ++
           [EvNow (clock w (trace st));
            EvGet (folder_url folder_id)
              {[ "Authorization" :=
                   "Bearer " +:+ format_s str_other access_token ]}
              (Some r)] |}.
Proof.
  intros He Hle Hc Ha Hget H401.
  assert (Hbody : get_box_folder_body w str_other folder_id
                    (log (EvNow (clock w (trace st))) st) =
                  Return r
                    {| session := session st;
                       trace := trace st ++
                         [EvNow (clock w (trace st));
                          EvGet (folder_url folder_id)
                            {[ "Authorization" :=
                                 "Bearer " +:+ format_s str_other access_token ]}
                            (Some r)] |}).
  { rewrite (get_box_folder_body_reads_session _ _ _ _ (PDict d)) by exact Hc.
    simpl. rewrite Ha. unfold requests_get. simpl.
    fold (folder_url folder_id). rewrite Hget.
    unfold log. simpl. by rewrite <- app_assoc. }
  assert (Hw : get_box_folder w str_other folder_id st =
               Return r
                 {| session := session st;
                    trace := trace st ++
                      [EvNow (clock w (trace st));
                       EvGet (folder_url folder_id)
                         {[ "Authorization" :=
                              "Bearer " +:+ format_s str_other access_token ]}
                         (Some r)] |}).
  { unfold get_box_folder.
    rewrite (checked_auth_after_expiry_check _ _ _ _ _ He).
    assert ((e <? clock w (trace st)) = false) as -> by (apply Z.ltb_ge; lia).
    unfold bind at 1. unfold ret at 1.
    unfold call_with_reactive_refresh. unfold bind at 1. rewrite Hbody.
    apply Z.eqb_neq in H401. by rewrite H401. }
  unfold box_folder, requires_auth, session_contains. unfold bind at 1.
  rewrite bool_decide_eq_true_2 by (rewrite Hc; by eexists). simpl.
  unfold box_folder_body. unfold bind at 1. rewrite Hw.
  unfold session_getitem. unfold bind at 1. simpl. rewrite Hc.
  unfold bind. simpl. by rewrite Ha.
Qed.

(** ** Storing, then deciding *)

(** X12. A Credential Set stored at [T] with a lifetime of [n] seconds
    is judged expired, at any later reading [t] of the clock, exactly
    when [t] is more than [n - 15] seconds after [T].  A lifetime under
    15 seconds is therefore expired from the moment it is stored. *)
Theorem store_then_decide (resp : pyval) (n : Z) (st st' later : state) :
  expires_in resp = Some n ->
  set_oauth_credentials w resp st = Return tt st' ->
  session later = session st' ->
  exists b,
    oauth_credentials_are_expired w later =
      Return b {| session := session later;
                  trace := trace later ++ [EvNow (clock w (trace later))] |} /\
    (b = true <->
     clock w (trace later) - clock w (trace st) > (n - 15) * 1000000) /\
    (n < 15 -> clock w (trace st) <= clock w (trace later) -> b = true).
Proof.
  intros He Hs Hl.
  destruct (set_oauth_credentials_inv _ _ _ _ Hs) as (m & Hm & _ & Hst').
  assert (m = n) as -> by congruence.
  assert (Hexp : session later !! OAUTH_EXPIRATION =
                 Some (PDatetime (clock w (trace st) + (n - 15) * 1000000))).
  { rewrite Hl, Hst'. simpl. unfold stored.
    rewrite lookup_insert_ne by done. by rewrite lookup_insert_eq. }
  eexists. split; [exact (expired_at _ _ _ Hexp)|]. split.
  - rewrite Z.ltb_lt. lia.
  - intros Hn Hle. apply Z.ltb_lt. lia.
Qed.



End Further.

Section FurtherLogin.

Variable w : World.
Variable iteritems : gmap string string -> list (string * string).

(** Whatever the order, [iteritems] yields the items of the dict. *)
Hypothesis iteritems_items : forall m, iteritems m ≡ₚ map_to_list m.

(** X15. [login] redirects to the provider's authorization endpoint
    with [response_type=code] and the client identifier of the
    environment, the two joined with [&] in the order the dict yields
    them; without the identifier it raises [KeyError].  It leaves the
    state as it was. *)
Theorem login_redirects_to_authorize (st : state) :
  match environ w !! "BOX_CLIENT_ID" with
  | Some client_id =>
      login w iteritems st =
        Return (Redirect
                  ("https://api.box.com/oauth2/authorize?response_type=code&client_id="
                     +:+ client_id)) st
      \/
      login w iteritems st =
        Return (Redirect
                  ("https://api.box.com/oauth2/authorize?client_id="
                     +:+ (client_id +:+ "&response_type=code"))) st
  | None => login w iteritems st = Raise (KeyError "BOX_CLIENT_ID") st
  end.
Proof.
  unfold login, environ_getitem, bind.
  destruct (environ w !! "BOX_CLIENT_ID") as [cid|]; [|reflexivity].
  simpl.
  pose proof (iteritems_items {[ "response_type" := "code"; "client_id" := cid ]})
    as Hp.
  rewrite map_to_list_insert in Hp by done.
  rewrite map_to_list_singleton in Hp.
  symmetry in Hp. apply Permutation_length_2_inv in Hp.
  unfold ret. destruct Hp as [-> | ->]; [left|right]; reflexivity.
Qed.

End FurtherLogin.

(** * The further properties at concrete worlds *)

Import Cases.

Lemma first_answer_passes_through_witness :
  proactive_refresh w_accepting st_fresh =
    Return tt (after_check w_accepting st_fresh) /\
  match get_box_folder_body w_accepting str0 "0"
          (after_check w_accepting st_fresh) with
  | Return r sB =>
      if status_code r =? 401 then True
      else refresh_access_token_if_needed w_accepting
             (get_box_folder_body w_accepting str0) "0" st_fresh = Return r sB
  | Raise e sB =>
      refresh_access_token_if_needed w_accepting
        (get_box_folder_body w_accepting str0) "0" st_fresh = Raise e sB
  end.
Proof.
  assert (Hp : proactive_refresh w_accepting st_fresh =
               Return tt (after_check w_accepting st_fresh))
    by (vm_compute; reflexivity).
  split; [exact Hp|].
  exact (first_answer_passes_through w_accepting
           (get_box_folder_body w_accepting str0) "0" st_fresh _ Hp).
Defined.

Lemma wrapper_needs_expiry_witness :
  session st_empty !! OAUTH_EXPIRATION = None /\
  refresh_access_token_if_needed w_accepting
    (get_box_folder_body w_accepting str0) "0" st_empty =
    Raise (KeyError OAUTH_EXPIRATION)
      {| session := session st_empty;
         trace := trace st_empty ++ [EvNow (clock w_accepting (trace st_empty))] |}.
Proof.
  split; [reflexivity|].
  exact (wrapper_needs_expiry w_accepting
           (get_box_folder_body w_accepting str0) "0" st_empty eq_refl).
Defined.

Lemma expired_without_refresh_token_witness :
  session st_no_refresh_token !! OAUTH_EXPIRATION = Some (PDatetime (t0 - 1)) /\
  t0 - 1 < clock w_rotating (trace st_no_refresh_token) /\
  session st_no_refresh_token !! OAUTH_CREDENTIALS =
    Some (PDict {[ "access_token" := PStr "tok1"; "expires_in" := PInt 3600 ]}) /\
  py_getitem (PDict {[ "access_token" := PStr "tok1"; "expires_in" := PInt 3600 ]})
    "refresh_token" = inl (KeyError "refresh_token") /\
  refresh_access_token_if_needed w_rotating
    (get_box_folder_body w_rotating str0) "0" st_no_refresh_token =
    Raise (KeyError "refresh_token")
      {| session := session st_no_refresh_token;
         trace := trace st_no_refresh_token
                    ++ [EvNow (clock w_rotating (trace st_no_refresh_token))] |}.
Proof.
  split; [reflexivity|]. split; [reflexivity|].
  split; [reflexivity|]. split; [reflexivity|].
  exact (expired_without_refresh_token w_rotating
           (get_box_folder_body w_rotating str0) "0" st_no_refresh_token
           (t0 - 1) _ _ eq_refl eq_refl eq_refl eq_refl).
Defined.

Lemma posted_form_fields_witness :
  environ w_rotating !! "BOX_CLIENT_ID" = Some "id" /\
  environ w_rotating !! "BOX_CLIENT_SECRET" = Some "secret" /\
  exists data answer,
    trace (final (get_token w_rotating code_abc st_empty)) =
      trace st_empty ++ [EvPost token_url data answer] /\
    data !! "client_id" = Some (PStr "id") /\
    data !! "client_secret" = Some (PStr "secret") /\
    data !! "grant_type"
      = Some (default (PStr "authorization_code") (code_abc !! "grant_type")) /\
    forall key,
      key <> "client_id" -> key <> "client_secret" -> key <> "grant_type" ->
      data !! key = code_abc !! key.
Proof.
  split; [reflexivity|]. split; [reflexivity|].
  exact (posted_form_fields w_rotating code_abc st_empty "id" "secret"
           eq_refl eq_refl).
Defined.

Lemma folder_request_with_fresh_token_witness :
  session st_fresh !! OAUTH_EXPIRATION = Some (PDatetime (t0 + 3585 * 1000000)) /\
  clock w_accepting (trace st_fresh) <= t0 + 3585 * 1000000 /\
  session st_fresh !! OAUTH_CREDENTIALS =
    Some (PDict {[ "access_token" := PStr "tok1";
                   "refresh_token" := PStr "ref1";
                   "expires_in" := PInt 3600 ]}) /\
  ({[ "access_token" := PStr "tok1"; "refresh_token" := PStr "ref1";
      "expires_in" := PInt 3600 ]} : gmap string pyval) !! "access_token"
    = Some (PStr "tok1") /\
  http_get w_accepting
    (trace st_fresh ++ [EvNow (clock w_accepting (trace st_fresh))])
    (folder_url "0")
    {[ "Authorization" := "Bearer " +:+ format_s str0 (PStr "tok1") ]}
    = Some (mkResponse 200 folder_body) /\
  status_code (mkResponse 200 folder_body) <> 401 /\
  box_folder w_accepting str0 "0" st_fresh =
    Return (folder_page (PStr "tok1") (json (mkResponse 200 folder_body)))
      {| session := session st_fresh;
         trace := trace st_fresh ++
           [EvNow (clock w_accepting (trace st_fresh));
            EvGet (folder_url "0")
              {[ "Authorization" := "Bearer " +:+ format_s str0 (PStr "tok1") ]}
              (Some (mkResponse 200 folder_body))] |}.
Proof.
  assert (Hle : clock w_accepting (trace st_fresh) <= t0 + 3585 * 1000000)
    by (vm_compute; discriminate).
  assert (H401 : status_code (mkResponse 200 folder_body) <> 401)
    by discriminate.
  split; [reflexivity|]. split; [exact Hle|]. split; [reflexivity|].
  split; [reflexivity|]. split; [reflexivity|]. split; [exact H401|].
  exact (folder_request_with_fresh_token w_accepting str0 "0" st_fresh
           (t0 + 3585 * 1000000) _ (PStr "tok1") (mkResponse 200 folder_body)
           eq_refl Hle eq_refl eq_refl eq_refl H401).
Defined.

Lemma folder_page_shows_last_token_witness :
  box_folder w_rotating str0 "0" st_fresh =
    Return (folder_page (PStr "tok2") folder_body)
      (final (box_folder w_rotating str0 "0" st_fresh)) /\
  ((folder_page (PStr "tok2") folder_body = Redirect "/login" /\
    final (box_folder w_rotating str0 "0" st_fresh) = st_fresh) \/
   exists pre credentials access_token r,
     trace (final (box_folder w_rotating str0 "0" st_fresh)) = pre ++
       [EvGet (folder_url "0")
          {[ "Authorization" := "Bearer " +:+ format_s str0 access_token ]}
          (Some r)] /\
     session (final (box_folder w_rotating str0 "0" st_fresh))
       !! OAUTH_CREDENTIALS = Some credentials /\
     py_getitem credentials "access_token" = inr access_token /\
     folder_page (PStr "tok2") folder_body = folder_page access_token (json r)).
Proof.
  assert (Hb : box_folder w_rotating str0 "0" st_fresh =
               Return (folder_page (PStr "tok2") folder_body)
                 (final (box_folder w_rotating str0 "0" st_fresh)))
    by (vm_compute; reflexivity).
  split; [exact Hb|].
  exact (folder_page_shows_last_token w_rotating str0 "0" st_fresh _ _ Hb).
Defined.

Lemma store_then_decide_witness :
  expires_in (token_body "tok2" "ref2" 10) = Some 10 /\
  set_oauth_credentials w_short_lived (token_body "tok2" "ref2" 10) st_empty =
    Return tt
      (final (set_oauth_credentials w_short_lived
                (token_body "tok2" "ref2" 10) st_empty)) /\
  exists b,
    oauth_credentials_are_expired w_short_lived
      (final (set_oauth_credentials w_short_lived
                (token_body "tok2" "ref2" 10) st_empty)) =
      Return b
        {| session :=
             session (final (set_oauth_credentials w_short_lived
                               (token_body "tok2" "ref2" 10) st_empty));
           trace :=
             trace (final (set_oauth_credentials w_short_lived
                             (token_body "tok2" "ref2" 10) st_empty))
               ++ [EvNow (clock w_short_lived
                            (trace (final (set_oauth_credentials w_short_lived
                                             (token_body "tok2" "ref2" 10)
                                             st_empty))))] |} /\
    (b = true <->
     clock w_short_lived
       (trace (final (set_oauth_credentials w_short_lived
                        (token_body "tok2" "ref2" 10) st_empty)))
       - clock w_short_lived (trace st_empty) > (10 - 15) * 1000000) /\
    (10 < 15 ->
     clock w_short_lived (trace st_empty) <=
       clock w_short_lived
         (trace (final (set_oauth_credentials w_short_lived
                          (token_body "tok2" "ref2" 10) st_empty))) ->
     b = true).
Proof.
  assert (Hs : set_oauth_credentials w_short_lived
                 (token_body "tok2" "ref2" 10) st_empty =
               Return tt
                 (final (set_oauth_credentials w_short_lived
                           (token_body "tok2" "ref2" 10) st_empty)))
    by (vm_compute; reflexivity).
  split; [reflexivity|]. split; [exact Hs|].
  exact (store_then_decide w_short_lived (token_body "tok2" "ref2" 10) 10
           st_empty _ _ eq_refl Hs eq_refl).
Defined.


Lemma login_redirects_to_authorize_witness :
  (forall m, iteritems_sorted m ≡ₚ map_to_list m) /\
  match environ w_rotating !! "BOX_CLIENT_ID" with
  | Some client_id =>
      login w_rotating iteritems_sorted st_empty =
        Return (Redirect
                  ("https://api.box.com/oauth2/authorize?response_type=code&client_id="
                     +:+ client_id)) st_empty
      \/
      login w_rotating iteritems_sorted st_empty =
        Return (Redirect
                  ("https://api.box.com/oauth2/authorize?client_id="
                     +:+ (client_id +:+ "&response_type=code"))) st_empty
  | None =>
      login w_rotating iteritems_sorted st_empty =
        Raise (KeyError "BOX_CLIENT_ID") st_empty
  end.
Proof.
  assert (Hi : forall m, iteritems_sorted m ≡ₚ map_to_list m) by reflexivity.
  split; [exact Hi|].
  exact (login_redirects_to_authorize w_rotating iteritems_sorted Hi st_empty).
Defined.
